(** * Keephy Categories Service: a shallow embedding of [src/index.js]

    The service keeps one Mongoose collection, [Category], and exposes six
    routes under [/api/categories].  The embedding has three layers:

    - the schema of lines 36-48 as a record, with the casts and validators the
      schema declares (ObjectId paths, [required] and [unique] on [name]);
    - the Mongoose calls the handlers make ([find], [findById], [populate],
      [sort], [save], [findByIdAndUpdate] with a [$set] or an [$addToSet]
      update) as operations of a state-and-error monad over the collection;
    - the route handlers, written in that monad the way the source writes
      them inside [try { ... } catch (error) { res.status(500) ... }].

    Scope of the model: requests are handled one at a time (an [await] never
    interleaves with another request) and the connection to MongoDB is up.
    The handlers are given first on requests whose members are absent
    ([None]) or have the type the schema expects (a string, or a boolean for
    [isActive]); the list and update routes are then given on untyped
    input as well, with the casts Mongoose applies to it.  JSON [null] is
    not modelled.  Update documents follow Mongoose 6 and later, which drop
    the keys whose value is [undefined] before the update is sent. *)

From Stdlib Require Import String Ascii List Bool ZArith NArith Lia.
From Stdlib Require Import Sorting.Sorted Sorting.Permutation.
Import ListNotations.

Local Open Scope string_scope.
Local Open Scope list_scope.
Local Open Scope Z_scope.

(** ** Identifiers and timestamps *)

(** A BSON ObjectId is twelve bytes; it is kept as the number its 24
    hexadecimal digits denote. *)
Definition ObjectId := N.

(** Milliseconds since the epoch, as [Date.now()] and [new Date()] give. *)
Definition Timestamp := Z.

Definition hexDigit (c : ascii) : option N :=
  let n := N_of_ascii c in
  if ((48 <=? n) && (n <=? 57))%N then Some (n - 48)%N
  else if ((97 <=? n) && (n <=? 102))%N then Some (n - 87)%N
  else if ((65 <=? n) && (n <=? 70))%N then Some (n - 55)%N
  else None.

Fixpoint hexValue (acc : N) (s : string) : option N :=
  match s with
  | EmptyString => Some acc
  | String c rest =>
      match hexDigit c with
      | Some d => hexValue (16 * acc + d)%N rest
      | None => None
      end
  end.

(** Mongoose's cast of a string to the ObjectId type: a string of 24
    hexadecimal digits is accepted, in either case; anything else is a cast
    failure.  (Drivers before BSON 5 also took any 12-character string as raw
    bytes; that legacy form is not part of the model.) *)
Definition castObjectId (s : string) : option ObjectId :=
  if Nat.eqb (String.length s) 24 then hexValue 0 s else None.

(** JavaScript truthiness of a value that is [undefined] or a string:
    the conditions [if (businessId)], [!name] and [parentId || null]. *)
Definition truthy (v : option string) : bool :=
  match v with
  | None => false
  | Some s => negb (String.eqb s EmptyString)
  end.

(** ** The schema *)

(** [categorySchema].  The paths without [required] or a default may be
    missing from a stored document, hence their option types; [parentId] is
    [null] by default, which [None] stands for as well. *)
Record Category := mkCategory {
  _id : ObjectId;
  name : string;
  description : option string;
  icon : option string;
  color : option string;
  isActive : bool;
  parentId : option ObjectId;
  subcategories : list ObjectId;
  businessId : option ObjectId;
  tenantId : option string;
  createdAt : Timestamp;
  updatedAt : Timestamp
}.

(** A document whose [subcategories] path has been populated: the
    identifiers are replaced by the documents they refer to.  The children
    are plain documents, their own [subcategories] still identifiers. *)
Record Populated := mkPopulated {
  doc : Category;
  children : list Category
}.

(** A document held by a handler: the values of its paths and the paths
    whose value could not be cast to the schema type.  Mongoose records such
    a failure on the document and reports it when the document is validated. *)
Record Document := mkDocument {
  fields : Category;
  isNew : bool;
  castErrors : list string
}.

(** ** The store *)

Inductive StoreError :=
| CastError (path : string)
| ValidationError (paths : list string)
| DuplicateKey (path : string).

Inductive result (A : Type) :=
| Ok (a : A)
| Err (e : StoreError).
Arguments Ok {A} a.
Arguments Err {A} e.

(** The collection in its natural (insertion) order, and the counter that
    stands for the driver's ObjectId generator. *)
Record World := mkWorld {
  docs : list Category;
  nextId : ObjectId
}.

Definition emptyWorld : World := {| docs := []; nextId := 0%N |}.

(** An operation on the store reads and writes the collection and may throw;
    what it wrote before throwing stays written. *)
Definition Op (A : Type) := World -> World * result A.

Definition ret {A} (a : A) : Op A := fun w => (w, Ok a).

Definition throw {A} (e : StoreError) : Op A := fun w => (w, Err e).

Definition bind {A B} (m : Op A) (k : A -> Op B) : Op B :=
  fun w =>
    match m w with
    | (w', Ok a) => k a w'
    | (w', Err e) => (w', Err e)
    end.

Notation "x <- m ;; k" := (bind m (fun x => k))
  (at level 61, m at next level, right associativity).
Notation "m ;;; k" := (bind m (fun _ => k))
  (at level 61, right associativity).

Definition getDocs : Op (list Category) := fun w => (w, Ok (docs w)).

Definition putDocs (ds : list Category) : Op unit :=
  fun w => ({| docs := ds; nextId := nextId w |}, Ok tt).

(** [new ObjectId()], as the model constructor calls it for [_id]. *)
Definition newObjectId : Op ObjectId :=
  fun w => ({| docs := docs w; nextId := (nextId w + 1)%N |}, Ok (nextId w)).

(** Lifting a cast into the monad: the failure names the path. *)
Definition castPath (path : string) (v : string) : Op ObjectId :=
  match castObjectId v with
  | Some oid => ret oid
  | None => throw (CastError path)
  end.

(** *** Lookup *)

Fixpoint lookupId (oid : ObjectId) (ds : list Category) : option Category :=
  match ds with
  | [] => None
  | d :: rest => if (_id d =? oid)%N then Some d else lookupId oid rest
  end.

(** [Category.findById(id)]: the identifier is cast, then looked up. *)
Definition findById (id : string) : Op (option Document) :=
  oid <- castPath "_id" id ;;
  ds <- getDocs ;;
  ret (option_map (fun d => {| fields := d; isNew := false; castErrors := [] |})
                  (lookupId oid ds)).

(** *** Filtered find *)

(** The filter object a handler builds, before Mongoose casts it. *)
Record Filter := mkFilter {
  f_isActive : option bool;
  f_businessId : option string;
  f_tenantId : option string;
  f_parentId : option string
}.

(** The same after the cast to the schema types. *)
Record Conditions := mkConditions {
  c_isActive : option bool;
  c_businessId : option ObjectId;
  c_tenantId : option string;
  c_parentId : option ObjectId
}.

Definition castOptional (path : string) (v : option string)
    : Op (option ObjectId) :=
  match v with
  | None => ret None
  | Some s => oid <- castPath path s ;; ret (Some oid)
  end.

Definition castFilter (f : Filter) : Op Conditions :=
  b <- castOptional "businessId" (f_businessId f) ;;
  p <- castOptional "parentId" (f_parentId f) ;;
  ret {| c_isActive := f_isActive f; c_businessId := b;
         c_tenantId := f_tenantId f; c_parentId := p |}.

Definition eqOptId (a b : option ObjectId) : bool :=
  match a, b with
  | Some x, Some y => (x =? y)%N
  | None, None => true
  | _, _ => false
  end.

Definition eqOptString (a b : option string) : bool :=
  match a, b with
  | Some x, Some y => String.eqb x y
  | None, None => true
  | _, _ => false
  end.

(** One equality condition of a query: absent from the filter, or equal to
    the stored value. *)
Definition holds {A} (eqb : A -> A -> bool) (cond : option A) (stored : A)
    : bool :=
  match cond with
  | None => true
  | Some v => eqb v stored
  end.

Definition matches (c : Conditions) (d : Category) : bool :=
  holds Bool.eqb (c_isActive c) (isActive d)
  && holds eqOptId (option_map Some (c_businessId c)) (businessId d)
  && holds eqOptString (option_map Some (c_tenantId c)) (tenantId d)
  && holds eqOptId (option_map Some (c_parentId c)) (parentId d).

(** [.sort({ name: 1 })]: ascending in the byte order of the strings. *)
Fixpoint insertByName (d : Category) (sorted : list Category) : list Category :=
  match sorted with
  | [] => [d]
  | e :: rest =>
      if String.leb (name d) (name e) then d :: sorted
      else e :: insertByName d rest
  end.

Definition sortByName (ds : list Category) : list Category :=
  fold_right insertByName [] ds.

(** [Category.find(filter).sort({ name: 1 })]. *)
Definition find (f : Filter) : Op (list Category) :=
  c <- castFilter f ;;
  ds <- getDocs ;;
  ret (sortByName (filter (matches c) ds)).

(** [.populate('subcategories')] on one document: every identifier of the
    array that resolves is replaced by its document, in the array's order;
    an identifier that resolves to nothing is dropped. *)
Definition expand (ds : list Category) (ids : list ObjectId) : list Category :=
  flat_map (fun oid => match lookupId oid ds with
                       | Some c => [c]
                       | None => []
                       end) ids.

Definition populateOne (ds : list Category) (d : Category) : Populated :=
  {| doc := d; children := expand ds (subcategories d) |}.

(** On the result of [findById] ... *)
Definition populate (found : Category) : Op Populated :=
  ds <- getDocs ;;
  ret (populateOne ds found).

(** ... and on the result of [find]. *)
Definition populateEach (found : list Category) : Op (list Populated) :=
  ds <- getDocs ;;
  ret (map (populateOne ds) found).

(** *** Writes *)

(** Replace the stored document with identifier [oid] (the first one in
    natural order) by [f] of it. *)
Fixpoint modifyId (oid : ObjectId) (f : Category -> Category)
    (ds : list Category) : list Category :=
  match ds with
  | [] => []
  | d :: rest =>
      if (_id d =? oid)%N then f d :: rest else d :: modifyId oid f rest
  end.

(** The unique index on [name]: is the name held by a stored document? *)
Definition nameTaken (n : string) (ds : list Category) : bool :=
  existsb (fun e => String.eqb (name e) n) ds.

(** Validation as [save] runs it, in a pre-save hook: the paths whose cast
    failed, and the [required] validator of [name], which rejects the empty
    string.  It runs on every [save], for a loaded document as for a new
    one, and on the [required] paths whether they were modified or not
    ([validateModifiedOnly] is off by default). *)
Definition validate (d : Document) : Op unit :=
  let invalid :=
    castErrors d
    ++ (if String.eqb (name (fields d)) EmptyString then ["name"] else []) in
  match invalid with
  | [] => ret tt
  | _ :: _ => throw (ValidationError invalid)
  end.

(** [document.save()]: validate, then insert a new document or write a
    loaded one back under its identifier.  (Mongoose writes only the modified
    paths of a loaded document; as requests do not interleave, the other
    paths still hold what is stored.) *)
Definition save (d : Document) : Op unit :=
  validate d ;;;
  ds <- getDocs ;;
  if isNew d then
    if nameTaken (name (fields d)) ds then throw (DuplicateKey "name")
    else putDocs (ds ++ [fields d])
  else putDocs (modifyId (_id (fields d)) (fun _ => fields d) ds).

(** [$addToSet] on an array of identifiers. *)
Definition addToSet (oid : ObjectId) (ids : list ObjectId) : list ObjectId :=
  if existsb (N.eqb oid) ids then ids else ids ++ [oid].

(** The two shapes of update document the handlers pass to
    [findByIdAndUpdate]: top-level keys, which Mongoose wraps in [$set], and
    an [$addToSet] on [subcategories]. *)
Inductive UpdateDoc :=
| SetPaths (name description icon color : option string)
           (isActive : option bool) (updatedAt : Timestamp)
| AddToSetSubcategories (oid : ObjectId).

(** A key of a [$set] whose value is [undefined] is removed from the update;
    a key with a value overwrites the stored one. *)
Definition assign {A} (v : option A) (stored : A) : A :=
  match v with
  | Some a => a
  | None => stored
  end.

Definition assignOptional {A} (v : option A) (stored : option A) : option A :=
  match v with
  | Some a => Some a
  | None => stored
  end.

Definition applyUpdate (u : UpdateDoc) (d : Category) : Category :=
  match u with
  | SetPaths n de ic co act upd =>
      {| _id := _id d;
         name := assign n (name d);
         description := assignOptional de (description d);
         icon := assignOptional ic (icon d);
         color := assignOptional co (color d);
         isActive := assign act (isActive d);
         parentId := parentId d;
         subcategories := subcategories d;
         businessId := businessId d;
         tenantId := tenantId d;
         createdAt := createdAt d;
         updatedAt := upd |}
  | AddToSetSubcategories oid =>
      {| _id := _id d;
         name := name d;
         description := description d;
         icon := icon d;
         color := color d;
         isActive := isActive d;
         parentId := parentId d;
         subcategories := addToSet oid (subcategories d);
         businessId := businessId d;
         tenantId := tenantId d;
         createdAt := createdAt d;
         updatedAt := updatedAt d |}
  end.

(** [Category.findByIdAndUpdate(id, update, { new: true })]: no validators
    run ([runValidators] is off by default); the unique index still rejects a
    new name that a stored document holds.  The result is the document after
    the update, or [None] when the identifier resolves to nothing. *)
Definition findByIdAndUpdate (id : string) (u : UpdateDoc)
    : Op (option Category) :=
  oid <- castPath "_id" id ;;
  ds <- getDocs ;;
  match lookupId oid ds with
  | None => ret None
  | Some d =>
      let d' := applyUpdate u d in
      if negb (String.eqb (name d') (name d)) && nameTaken (name d') ds
      then throw (DuplicateKey "name")
      else putDocs (modifyId oid (fun _ => d') ds) ;;; ret (Some d')
  end.

(** [new Category({ ... })]: a fresh identifier, the schema defaults
    ([isActive], [createdAt], [updatedAt], the empty array), and the given
    values cast to the schema types.  [parentId] arrives as
    [parentId || null]. *)
Definition newCategory (now : Timestamp)
    (name description icon color parentId businessId tenantId : option string)
    : Op Document :=
  oid <- newObjectId ;;
  let castErr (path : string) (v : option string) : list string :=
    match v with
    | Some s => match castObjectId s with Some _ => [] | None => [path] end
    | None => []
    end in
  let cast (v : option string) : option ObjectId :=
    match v with
    | Some s => castObjectId s
    | None => None
    end in
  ret {| fields :=
           {| _id := oid;
              name := match name with Some s => s | None => EmptyString end;
              description := description;
              icon := icon;
              color := color;
              isActive := true;
              parentId := cast parentId;
              subcategories := [];
              businessId := cast businessId;
              tenantId := tenantId;
              createdAt := now;
              updatedAt := now |};
         isNew := true;
         castErrors :=
           castErr "parentId" parentId ++ castErr "businessId" businessId |}.

(** ** Requests and responses *)

Module Query.
Record t := mk {
  businessId : option string;
  tenantId : option string;
  parentId : option string
}.
End Query.

Module CreateBody.
Record t := mk {
  name : option string;
  description : option string;
  icon : option string;
  color : option string;
  parentId : option string;
  businessId : option string;
  tenantId : option string
}.
End CreateBody.

Module UpdateBody.
Record t := mk {
  name : option string;
  description : option string;
  icon : option string;
  color : option string;
  isActive : option bool
}.
End UpdateBody.

(** The members of the JSON envelope besides [success]. *)
Inductive Payload :=
| Categories (data : list Populated) (count : nat)
| Subcategories (data : list Category) (count : nat)
| Expanded (data : Populated)
| Plain (data : Category)
| Message (message : string)
| Failure (error : string).

Record Response := mkResponse {
  status : nat;
  success : bool;
  payload : Payload
}.

(** [res.json(...)] answers with status 200 unless [res.status] set one. *)
Definition json (p : Payload) : Response :=
  {| status := 200; success := true; payload := p |}.

Definition created (p : Payload) : Response :=
  {| status := 201; success := true; payload := p |}.

Definition failed (code : nat) (message : string) : Response :=
  {| status := code; success := false; payload := Failure message |}.

(** [try { body } catch (error) { res.status(500).json(...) }]. *)
Definition tryCatch (body : Op Response) (message : string)
    : World -> World * Response :=
  fun w =>
    match body w with
    | (w', Ok r) => (w', r)
    | (w', Err _) => (w', failed 500 message)
    end.

(** ** The route handlers *)

(** [GET /api/categories] *)
Definition listCategories (q : Query.t) : World -> World * Response :=
  tryCatch
    (let filter :=
       {| f_isActive := Some true;
          f_businessId :=
            if truthy (Query.businessId q) then Query.businessId q else None;
          f_tenantId :=
            if truthy (Query.tenantId q) then Query.tenantId q else None;
          f_parentId :=
            if truthy (Query.parentId q) then Query.parentId q else None |} in
     found <- find filter ;;
     categories <- populateEach found ;;
     ret (json (Categories categories (length categories))))
    "Failed to fetch categories".

(** [GET /api/categories/:id] *)
Definition getCategory (id : string) : World -> World * Response :=
  tryCatch
    (found <- findById id ;;
     match found with
     | None => ret (failed 404 "Category not found")
     | Some category =>
         populated <- populate (fields category) ;;
         ret (json (Expanded populated))
     end)
    "Failed to fetch category".

(** [GET /api/categories/:id/subcategories] *)
Definition getSubcategories (id : string) : World -> World * Response :=
  tryCatch
    (subcategories <-
       find {| f_isActive := Some true; f_businessId := None;
               f_tenantId := None; f_parentId := Some id |} ;;
     ret (json (Subcategories subcategories (length subcategories))))
    "Failed to fetch subcategories".

(** [POST /api/categories] *)
Definition createCategory (now : Timestamp) (body : CreateBody.t)
    : World -> World * Response :=
  tryCatch
    (if negb (truthy (CreateBody.name body))
     then ret (failed 400 "Category name is required")
     else
       category <-
         newCategory now
           (CreateBody.name body) (CreateBody.description body)
           (CreateBody.icon body) (CreateBody.color body)
           (if truthy (CreateBody.parentId body)
            then CreateBody.parentId body else None)
           (CreateBody.businessId body) (CreateBody.tenantId body) ;;
       save category ;;;
       (* If this is a subcategory, update parent *)
       (if truthy (CreateBody.parentId body)
        then match CreateBody.parentId body with
             | Some parent =>
                 findByIdAndUpdate parent
                   (AddToSetSubcategories (_id (fields category))) ;;; ret tt
             | None => ret tt
             end
        else ret tt) ;;;
       ret (created (Plain (fields category))))
    "Failed to create category".

(** [PUT /api/categories/:id] *)
Definition updateCategory (now : Timestamp) (id : string) (body : UpdateBody.t)
    : World -> World * Response :=
  tryCatch
    (category <-
       findByIdAndUpdate id
         (SetPaths (UpdateBody.name body) (UpdateBody.description body)
                   (UpdateBody.icon body) (UpdateBody.color body)
                   (UpdateBody.isActive body) now) ;;
     match category with
     | None => ret (failed 404 "Category not found")
     | Some c => ret (json (Plain c))
     end)
    "Failed to update category".

(** The assignment [category.isActive = b] on a loaded document. *)
Definition withIsActive (b : bool) (c : Category) : Category :=
  {| _id := _id c; name := name c; description := description c;
     icon := icon c; color := color c; isActive := b;
     parentId := parentId c; subcategories := subcategories c;
     businessId := businessId c; tenantId := tenantId c;
     createdAt := createdAt c; updatedAt := updatedAt c |}.

Definition setIsActive (b : bool) (d : Document) : Document :=
  {| fields := withIsActive b (fields d);
     isNew := isNew d;
     castErrors := castErrors d |}.

(** [DELETE /api/categories/:id] *)
Definition deleteCategory (id : string) : World -> World * Response :=
  tryCatch
    (found <- findById id ;;
     match found with
     | None => ret (failed 404 "Category not found")
     | Some category =>
         (* Soft delete *)
         save (setIsActive false category) ;;;
         ret (json (Message "Category deleted successfully"))
     end)
    "Failed to delete category".

(** ** The list and update routes on untyped input *)

(** The handlers hand the members of [req.query] and [req.body] to
    Mongoose as they arrive.  [Query.t] and [UpdateBody.t] above are the
    requests whose members are plain strings (and a boolean for
    [isActive]); the two routes are given here on whatever the parsers
    yield, with the casts Mongoose applies. *)

(** A member of the parsed query string.  [tenantId=acme] parses to a
    string; [tenantId[$ne]=acme] parses to the object [{ $ne: 'acme' }],
    which the handler puts into the filter like a string and which
    Mongoose reads as query operators.  Such an object (or an array) is
    kept by what it does: the test it puts on the stored value of the path
    ([None] for a path that is missing or null), or the cast failure it
    causes. *)
Inductive Param (A : Type) :=
| Text (s : string)
| Operators (test : option A -> bool)
| Rejected.
Arguments Text {A} s.
Arguments Operators {A} test.
Arguments Rejected {A}.

(** [if (businessId)]: an object or an array is truthy. *)
Definition truthyParam {A} (v : option (Param A)) : bool :=
  match v with
  | None => false
  | Some (Text s) => negb (String.eqb s EmptyString)
  | Some _ => true
  end.

Module RawQuery.
Record t := mk {
  businessId : option (Param ObjectId);
  tenantId : option (Param string);
  parentId : option (Param ObjectId)
}.

(** The query whose members are all plain strings. *)
Definition plain (q : Query.t) : t :=
  {| businessId := option_map Text (Query.businessId q);
     tenantId := option_map Text (Query.tenantId q);
     parentId := option_map Text (Query.parentId q) |}.
End RawQuery.

(** The filter object of the list handler, and the tests on the stored
    values that Mongoose's cast of it yields. *)
Record RawFilter := mkRawFilter {
  r_isActive : option bool;
  r_businessId : option (Param ObjectId);
  r_tenantId : option (Param string);
  r_parentId : option (Param ObjectId)
}.

Record Tests := mkTests {
  t_isActive : option bool;
  t_businessId : option (option ObjectId -> bool);
  t_tenantId : option (option string -> bool);
  t_parentId : option (option ObjectId -> bool)
}.

Definition castParamId (path : string) (v : option (Param ObjectId))
    : Op (option (option ObjectId -> bool)) :=
  match v with
  | None => ret None
  | Some (Text s) => oid <- castPath path s ;; ret (Some (eqOptId (Some oid)))
  | Some (Operators test) => ret (Some test)
  | Some Rejected => throw (CastError path)
  end.

Definition castParamText (path : string) (v : option (Param string))
    : Op (option (option string -> bool)) :=
  match v with
  | None => ret None
  | Some (Text s) => ret (Some (eqOptString (Some s)))
  | Some (Operators test) => ret (Some test)
  | Some Rejected => throw (CastError path)
  end.

Definition castRawFilter (f : RawFilter) : Op Tests :=
  b <- castParamId "businessId" (r_businessId f) ;;
  t <- castParamText "tenantId" (r_tenantId f) ;;
  p <- castParamId "parentId" (r_parentId f) ;;
  ret {| t_isActive := r_isActive f; t_businessId := b;
         t_tenantId := t; t_parentId := p |}.

Definition applies {A} (test : option (option A -> bool)) (stored : option A)
    : bool :=
  match test with
  | Some f => f stored
  | None => true
  end.

Definition passes (t : Tests) (d : Category) : bool :=
  holds Bool.eqb (t_isActive t) (isActive d)
  && applies (t_businessId t) (businessId d)
  && applies (t_tenantId t) (tenantId d)
  && applies (t_parentId t) (parentId d).

(** [Category.find(filter).sort({ name: 1 })] on an untyped filter. *)
Definition findRaw (f : RawFilter) : Op (list Category) :=
  t <- castRawFilter f ;;
  ds <- getDocs ;;
  ret (sortByName (filter (passes t) ds)).

(** [GET /api/categories], lines 72-97, on the parsed query string. *)
Definition listCategoriesRaw (q : RawQuery.t) : World -> World * Response :=
  tryCatch
    (let filter :=
       {| r_isActive := Some true;
          r_businessId :=
            if truthyParam (RawQuery.businessId q)
            then RawQuery.businessId q else None;
          r_tenantId :=
            if truthyParam (RawQuery.tenantId q)
            then RawQuery.tenantId q else None;
          r_parentId :=
            if truthyParam (RawQuery.parentId q)
            then RawQuery.parentId q else None |} in
     found <- findRaw filter ;;
     categories <- populateEach found ;;
     ret (json (Categories categories (length categories))))
    "Failed to fetch categories".

(** A member of the JSON body of an update, by what Mongoose's cast of the
    update document makes of it: a value of the schema type of its path
    (the string itself, ['yes'] or [1] for the boolean [true]), or a cast
    failure (an object or an array for a string path, ['maybe'] for
    [isActive]). *)
Inductive Member (A : Type) :=
| Given (a : A)
| Uncastable.
Arguments Given {A} a.
Arguments Uncastable {A}.

Module RawUpdateBody.
Record t := mk {
  name : option (Member string);
  description : option (Member string);
  icon : option (Member string);
  color : option (Member string);
  isActive : option (Member bool)
}.

(** The body whose members all have the type of their path. *)
Definition typed (b : UpdateBody.t) : t :=
  {| name := option_map Given (UpdateBody.name b);
     description := option_map Given (UpdateBody.description b);
     icon := option_map Given (UpdateBody.icon b);
     color := option_map Given (UpdateBody.color b);
     isActive := option_map Given (UpdateBody.isActive b) |}.
End RawUpdateBody.

Definition castMember {A} (path : string) (v : option (Member A))
    : Op (option A) :=
  match v with
  | None => ret None
  | Some (Given a) => ret (Some a)
  | Some Uncastable => throw (CastError path)
  end.

(** The cast of the update document against the schema, which
    [findByIdAndUpdate] runs before it sends the command: it throws on the
    first member that cannot be cast, whatever the identifier. *)
Definition castUpdate (body : RawUpdateBody.t) : Op UpdateBody.t :=
  n <- castMember "name" (RawUpdateBody.name body) ;;
  de <- castMember "description" (RawUpdateBody.description body) ;;
  ic <- castMember "icon" (RawUpdateBody.icon body) ;;
  co <- castMember "color" (RawUpdateBody.color body) ;;
  act <- castMember "isActive" (RawUpdateBody.isActive body) ;;
  ret {| UpdateBody.name := n; UpdateBody.description := de;
         UpdateBody.icon := ic; UpdateBody.color := co;
         UpdateBody.isActive := act |}.

(** [PUT /api/categories/:id], lines 192-227, on the parsed body. *)
Definition updateCategoryRaw (now : Timestamp) (id : string)
    (body : RawUpdateBody.t) : World -> World * Response :=
  tryCatch
    (category <-
       (cast <- castUpdate body ;;
        findByIdAndUpdate id
          (SetPaths (UpdateBody.name cast) (UpdateBody.description cast)
                    (UpdateBody.icon cast) (UpdateBody.color cast)
                    (UpdateBody.isActive cast) now)) ;;
     match category with
     | None => ret (failed 404 "Category not found")
     | Some c => ret (json (Plain c))
     end)
    "Failed to update category".

(** Some member of the body cannot be cast. *)
Definition uncastable (body : RawUpdateBody.t) : bool :=
  let bad {A} (v : option (Member A)) : bool :=
    match v with
    | Some Uncastable => true
    | _ => false
    end in
  bad (RawUpdateBody.name body) || bad (RawUpdateBody.description body)
  || bad (RawUpdateBody.icon body) || bad (RawUpdateBody.color body)
  || bad (RawUpdateBody.isActive body).

(** ** The service as a transition system *)

Inductive Request :=
| ListCategories (q : Query.t)
| GetCategory (id : string)
| GetSubcategories (id : string)
| CreateCategory (body : CreateBody.t)
| UpdateCategory (id : string) (body : UpdateBody.t)
| DeleteCategory (id : string).

(** One request handled at clock reading [now]. *)
Definition handle (now : Timestamp) (r : Request) : World -> World * Response :=
  match r with
  | ListCategories q => listCategories q
  | GetCategory id => getCategory id
  | GetSubcategories id => getSubcategories id
  | CreateCategory body => createCategory now body
  | UpdateCategory id body => updateCategory now id body
  | DeleteCategory id => deleteCategory id
  end.

(** A sequence of requests, each with the clock reading at which it is
    handled; the responses are collected in order. *)
Fixpoint run (trace : list (Timestamp * Request)) (w : World)
    : World * list Response :=
  match trace with
  | [] => (w, [])
  | (now, r) :: rest =>
      let (w1, resp) := handle now r w in
      let (w2, resps) := run rest w1 in
      (w2, resp :: resps)
  end.

(** The worlds the service can be in at clock reading [t], the clock never
    running backwards between two requests. *)
Inductive reachable : Timestamp -> World -> Prop :=
| reach_start : forall t, reachable t emptyWorld
| reach_step : forall t w now r,
    reachable t w -> t <= now -> reachable now (fst (handle now r w)).

(** ** Vocabulary of the properties *)

(** Ascending by [name]. *)
Definition byName (d e : Category) : Prop :=
  String.leb (name d) (name e) = true.

(** A filter parameter of a listing that names an identifier can be cast:
    it is absent, empty, or 24 hexadecimal digits. *)
Definition castable (v : option string) : bool :=
  match v with
  | None => true
  | Some s =>
      if String.eqb s EmptyString then true
      else match castObjectId s with Some _ => true | None => false end
  end.

(** The identifier condition a castable parameter contributes to the query. *)
Definition condition (v : option string) : option ObjectId :=
  match v with
  | Some s => if String.eqb s EmptyString then None else castObjectId s
  | None => None
  end.

(** A stored identifier agrees with a filter parameter that is absent or
    empty, and otherwise with the identifier the parameter denotes. *)
Definition agreesId (v : option string) (stored : option ObjectId) : bool :=
  match v with
  | None => true
  | Some s =>
      if String.eqb s EmptyString then true
      else match castObjectId s, stored with
           | Some a, Some b => (a =? b)%N
           | _, _ => false
           end
  end.

Definition agreesText (v : option string) (stored : option string) : bool :=
  match v with
  | None => true
  | Some s =>
      if String.eqb s EmptyString then true
      else match stored with
           | Some t => String.eqb s t
           | None => false
           end
  end.

(** The documents a listing is to return: active, and in agreement with
    every filter parameter. *)
Definition selects (q : Query.t) (d : Category) : bool :=
  isActive d
  && agreesId (Query.businessId q) (businessId d)
  && agreesText (Query.tenantId q) (tenantId d)
  && agreesId (Query.parentId q) (parentId d).

(** The reading under which every parameter present in the query string is
    an equality condition, the empty string included. *)
Definition exactText (v : option string) (stored : option string) : bool :=
  match v with
  | None => true
  | Some s => eqOptString (Some s) stored
  end.


(** ** The writes of one request *)

(** The collection after a request, in terms of the collection before it:
    nothing written, one document rewritten in place by an update or by the
    soft delete, or a document inserted and then, possibly, an identifier
    added to its parent's set. *)
Inductive effect (now : Timestamp) (w : World)
    : Request -> list Category -> Prop :=
| effect_none : forall r, effect now w r (docs w)
| effect_update : forall id body oid,
    castObjectId id = Some oid ->
    effect now w (UpdateCategory id body)
      (modifyId oid
         (applyUpdate
            (SetPaths (UpdateBody.name body) (UpdateBody.description body)
                      (UpdateBody.icon body) (UpdateBody.color body)
                      (UpdateBody.isActive body) now))
         (docs w))
| effect_delete : forall id oid,
    castObjectId id = Some oid ->
    effect now w (DeleteCategory id)
      (modifyId oid (withIsActive false) (docs w))
| effect_create : forall body d,
    _id d = nextId w -> isActive d = true ->
    createdAt d = now -> updatedAt d = now ->
    effect now w (CreateCategory body) (docs w ++ [d])
| effect_create_link : forall body d parent,
    _id d = nextId w -> isActive d = true ->
    createdAt d = now -> updatedAt d = now ->
    effect now w (CreateCategory body)
      (modifyId parent (applyUpdate (AddToSetSubcategories (_id d)))
         (docs w ++ [d])).

(** ** Clock and runs *)

(** No stored document was last updated after [t]. *)
Definition timely (t : Timestamp) (w : World) : Prop :=
  Forall (fun d => updatedAt d <= t) (docs w).

(** The clock readings of a trace do not decrease, starting from [t]. *)
Fixpoint ordered (t : Timestamp) (trace : list (Timestamp * Request)) : bool :=
  match trace with
  | [] => true
  | (now, _) :: rest => (t <=? now) && ordered now rest
  end.

Definition lastTime (t : Timestamp) (trace : list (Timestamp * Request))
    : Timestamp :=
  fold_left (fun _ step => fst step) trace t.

(** An identifier in a request path resolves to a stored document. *)
Definition resolves (w : World) (id : string) (d : Category) : Prop :=
  exists oid, castObjectId id = Some oid /\ lookupId oid (docs w) = Some d.

(** The one kind of request that can switch a document back on: an update
    of that document whose body has [isActive: true]. *)
Definition reactivates (oid : ObjectId) (r : Request) : bool :=
  match r with
  | UpdateCategory id body =>
      match castObjectId id, UpdateBody.isActive body with
      | Some o, Some true => (o =? oid)%N
      | _, _ => false
      end
  | _ => false
  end.

(** ** Sample requests *)

Definition oid0 : string := "000000000000000000000000".
Definition oid1 : string := "000000000000000000000001".
Definition oid9 : string := "000000000000000000000009".

Definition foodBody : CreateBody.t :=
  {| CreateBody.name := Some "Food"; CreateBody.description := None;
     CreateBody.icon := None; CreateBody.color := None;
     CreateBody.parentId := None; CreateBody.businessId := None;
     CreateBody.tenantId := Some "acme" |}.

Definition pizzaBody : CreateBody.t :=
  {| CreateBody.name := Some "Pizza"; CreateBody.description := None;
     CreateBody.icon := None; CreateBody.color := None;
     CreateBody.parentId := Some oid0; CreateBody.businessId := None;
     CreateBody.tenantId := Some "acme" |}.

Definition appleBody : CreateBody.t :=
  {| CreateBody.name := Some "Apple"; CreateBody.description := None;
     CreateBody.icon := None; CreateBody.color := None;
     CreateBody.parentId := Some oid0; CreateBody.businessId := None;
     CreateBody.tenantId := None |}.

(** The store after Food alone was created, at 10. *)
Definition larder : World :=
  fst (run [(10, CreateCategory foodBody)] emptyWorld).

Definition pastaBody : UpdateBody.t :=
  {| UpdateBody.name := Some "Pasta"; UpdateBody.description := None;
     UpdateBody.icon := None; UpdateBody.color := Some "red";
     UpdateBody.isActive := None |}.

(** An update body that clears the name. *)
Definition namelessBody : UpdateBody.t :=
  {| UpdateBody.name := Some EmptyString; UpdateBody.description := None;
     UpdateBody.icon := None; UpdateBody.color := None;
     UpdateBody.isActive := None |}.

(** An update body that switches the category on. *)
Definition reviveBody : UpdateBody.t :=
  {| UpdateBody.name := None; UpdateBody.description := None;
     UpdateBody.icon := None; UpdateBody.color := None;
     UpdateBody.isActive := Some true |}.

(** Food, created at 10, with the children Pizza (at 20) and Apple (at 30). *)
Definition pantry : World :=
  fst (run [(10, CreateCategory foodBody); (20, CreateCategory pizzaBody);
            (30, CreateCategory appleBody)] emptyWorld).

(** The pantry after Food was soft-deleted, at 40. *)
Definition closedPantry : World :=
  fst (deleteCategory oid0 pantry).

(** A longer history: the pantry, then Pizza renamed to Pasta at 40 and
    Apple soft-deleted at 50. *)
Definition oid2 : string := "000000000000000000000002".

Definition history : list (Timestamp * Request) :=
  [(10, CreateCategory foodBody); (20, CreateCategory pizzaBody);
   (30, CreateCategory appleBody); (40, UpdateCategory oid1 pastaBody);
   (50, DeleteCategory oid2)].

Definition menu : World := fst (run history emptyWorld).

(** ** Steps and invariants *)

(** The update document of a [PUT] handled at [now]. *)
Definition updateOf (now : Timestamp) (body : UpdateBody.t) : UpdateDoc :=
  SetPaths (UpdateBody.name body) (UpdateBody.description body)
           (UpdateBody.icon body) (UpdateBody.color body)
           (UpdateBody.isActive body) now.

(** One request in full: what it found, what the store checked and what
    was written, the identifier counter included. *)
Inductive transition (now : Timestamp) (w : World)
    : Request -> World -> Prop :=
| tr_none : forall r w',
    docs w' = docs w -> (nextId w <= nextId w')%N ->
    transition now w r w'
| tr_update : forall id body oid d w',
    castObjectId id = Some oid ->
    lookupId oid (docs w) = Some d ->
    (name (applyUpdate (updateOf now body) d) = name d
     \/ nameTaken (name (applyUpdate (updateOf now body) d)) (docs w)
        = false) ->
    docs w' = modifyId oid (applyUpdate (updateOf now body)) (docs w) ->
    nextId w' = nextId w ->
    transition now w (UpdateCategory id body) w'
| tr_delete : forall id oid d w',
    castObjectId id = Some oid ->
    lookupId oid (docs w) = Some d ->
    name d <> EmptyString ->
    docs w' = modifyId oid (withIsActive false) (docs w) ->
    nextId w' = nextId w ->
    transition now w (DeleteCategory id) w'
| tr_create : forall body d w',
    _id d = nextId w ->
    name d <> EmptyString ->
    nameTaken (name d) (docs w) = false ->
    isActive d = true -> subcategories d = [] ->
    createdAt d = now -> updatedAt d = now ->
    nextId w' = (nextId w + 1)%N ->
    (docs w' = docs w ++ [d]
     \/ exists parent,
          parentId d = Some parent /\
          docs w' = modifyId parent
                      (applyUpdate (AddToSetSubcategories (_id d)))
                      (docs w ++ [d])) ->
    transition now w (CreateCategory body) w'.

(** Every identifier in a [subcategories] array is that of a stored
    document whose [parentId] is the holder of the array. *)
Definition linked (ds : list Category) : Prop :=
  forall p c, In p ds -> In c (subcategories p) ->
    exists e, In e ds /\ _id e = c /\ parentId e = Some (_id p).

(** What holds of the store in every world the service reaches by clock
    reading [t]: identifiers are below the counter and pairwise distinct,
    names are pairwise distinct, no [subcategories] array holds an
    identifier twice, every identifier in such an array is that of a stored
    document whose [parentId] is the holder, and no document was updated
    before it was created or after [t]. *)
Record coherent (t : Timestamp) (w : World) : Prop := mkCoherent {
  ids_fresh : Forall (fun d => (_id d < nextId w)%N) (docs w);
  ids_unique : NoDup (map _id (docs w));
  names_unique : NoDup (map name (docs w));
  children_unique : Forall (fun d => NoDup (subcategories d)) (docs w);
  children_linked : linked (docs w);
  times_ordered :
    Forall (fun d => createdAt d <= updatedAt d /\ updatedAt d <= t) (docs w)
}.

(** The three reading routes. *)
Definition readOnly (r : Request) : bool :=
  match r with
  | ListCategories _ | GetCategory _ | GetSubcategories _ => true
  | _ => false
  end.

(** The status of a request that went through, and the statuses besides
    500 with which a route turns a request down. *)
Definition okStatus (r : Request) : nat :=
  match r with
  | CreateCategory _ => 201%nat
  | _ => 200%nat
  end.

Definition refusals (r : Request) : list nat :=
  match r with
  | CreateCategory _ => [400%nat]
  | GetCategory _ | UpdateCategory _ _ | DeleteCategory _ => [404%nat]
  | ListCategories _ | GetSubcategories _ => []
  end.

(** The payload of an answer is an error message. *)
Definition isFailure (p : Payload) : bool :=
  match p with
  | Failure _ => true
  | _ => false
  end.

(** * Properties *)

(** Running an operation comes down to unfolding the monad. *)
Ltac unfold_op :=
unfold tryCatch, find, findById, findByIdAndUpdate, populate, populateEach,
  save, validate, castFilter, castOptional, castPath, newCategory,
  newObjectId, getDocs, putDocs, bind, ret, throw in *.

(** ** The order of a listing *)

Lemma insertByName_perm (d : Category) (l : list Category) :
  Permutation (d :: l) (insertByName d l).
Proof.
  induction l as [|e l IH]; simpl.
  - apply Permutation_refl.
  - destruct (String.leb (name d) (name e)).
    + apply Permutation_refl.
    + eapply perm_trans; [apply perm_swap|].
      now apply perm_skip.
Qed.

Lemma sortByName_perm (l : list Category) : Permutation l (sortByName l).
Proof.
  induction l as [|d l IH]; simpl.
  - constructor.
  - eapply perm_trans; [|apply insertByName_perm].
    now constructor.
Qed.

Lemma insertByName_hd (d e : Category) (l : list Category) :
  byName e d -> HdRel byName e l -> HdRel byName e (insertByName d l).
Proof.
  intros Hed Hl. destruct l as [|x l]; simpl.
  - now constructor.
  - destruct (String.leb (name d) (name x)); constructor; trivial.
    now inversion Hl.
Qed.

Lemma insertByName_sorted (d : Category) (l : list Category) :
  Sorted byName l -> Sorted byName (insertByName d l).
Proof.
  induction 1 as [|e l Hs IH Hhd]; simpl.
  - repeat constructor.
  - destruct (String.leb (name d) (name e)) eqn:Hle.
    + constructor; [now constructor|]. now constructor.
    + constructor; [exact IH|].
      apply insertByName_hd; trivial.
      unfold byName. destruct (String.leb_total (name d) (name e)); congruence.
Qed.

Lemma sortByName_sorted (l : list Category) : Sorted byName (sortByName l).
Proof.
  induction l as [|d l IH]; simpl.
  - constructor.
  - now apply insertByName_sorted.
Qed.

(** ** Lookup and in-place modification *)

Lemma lookupId_In oid ds d : lookupId oid ds = Some d -> In d ds.
Proof.
  induction ds as [|e ds IH]; simpl; [discriminate|].
  destruct (_id e =? oid)%N; intros H.
  - left. congruence.
  - right. auto.
Qed.

Lemma lookupId_id oid ds d : lookupId oid ds = Some d -> _id d = oid.
Proof.
  induction ds as [|e ds IH]; simpl; [discriminate|].
  destruct (_id e =? oid)%N eqn:E; intros H.
  - apply N.eqb_eq in E. congruence.
  - auto.
Qed.

Lemma lookupId_app oid ds d e :
  lookupId oid ds = Some d -> lookupId oid (ds ++ e) = Some d.
Proof.
  induction ds as [|x ds IH]; simpl; [discriminate|].
  destruct (_id x =? oid)%N; auto.
Qed.

(** After a modification that keeps the identifier, the modified document
    is what its identifier resolves to, and every other identifier
    resolves as before. *)
Lemma lookupId_modifyId_same oid f ds d :
  (forall x, _id (f x) = _id x) ->
  lookupId oid ds = Some d ->
  lookupId oid (modifyId oid f ds) = Some (f d).
Proof.
  intros Hf. induction ds as [|e ds IH]; simpl; [discriminate|].
  destruct (_id e =? oid)%N eqn:E; simpl.
  - intros [= ->]. now rewrite Hf, E.
  - rewrite E. exact IH.
Qed.

Lemma lookupId_modifyId_other oid oid' f ds :
  (forall x, _id (f x) = _id x) ->
  oid' <> oid ->
  lookupId oid' (modifyId oid f ds) = lookupId oid' ds.
Proof.
  intros Hf Hne. induction ds as [|e ds IH]; simpl; [reflexivity|].
  destruct (_id e =? oid)%N eqn:E; simpl.
  - rewrite Hf. apply N.eqb_eq in E.
    destruct (_id e =? oid')%N eqn:E'; [|reflexivity].
    apply N.eqb_eq in E'. congruence.
  - now rewrite IH.
Qed.

Lemma modifyId_absent oid f ds :
  lookupId oid ds = None -> modifyId oid f ds = ds.
Proof.
  induction ds as [|e ds IH]; simpl; [reflexivity|].
  destruct (_id e =? oid)%N; [discriminate|].
  intros H. now rewrite IH.
Qed.

Lemma modifyId_found oid f ds d :
  lookupId oid ds = Some d ->
  modifyId oid (fun _ => f d) ds = modifyId oid f ds.
Proof.
  induction ds as [|e ds IH]; simpl; [reflexivity|].
  destruct (_id e =? oid)%N.
  - now intros [= ->].
  - intros H. now rewrite IH.
Qed.

Lemma modifyId_length oid f ds : length (modifyId oid f ds) = length ds.
Proof.
  induction ds as [|e ds IH]; simpl; [reflexivity|].
  destruct (_id e =? oid)%N; simpl; congruence.
Qed.

Lemma in_expand ds ids c :
  In c (expand ds ids) <->
  exists oid, In oid ids /\ lookupId oid ds = Some c.
Proof.
  unfold expand. rewrite in_flat_map. split.
  - intros (oid & Hin & Hc). exists oid. split; [exact Hin|].
    destruct (lookupId oid ds); simpl in Hc; [|contradiction].
    destruct Hc as [->|[]]. reflexivity.
  - intros (oid & Hin & Hc). exists oid. split; [exact Hin|].
    rewrite Hc. now left.
Qed.

(** ** Set insertion *)

Lemma addToSet_present oid ids : In oid ids -> addToSet oid ids = ids.
Proof.
intros Hin. unfold addToSet.
replace (existsb (N.eqb oid) ids) with true; [reflexivity|].
symmetry. apply existsb_exists. exists oid. split; [exact Hin|apply N.eqb_refl].
Qed.

Lemma addToSet_In oid ids : In oid (addToSet oid ids).
Proof.
unfold addToSet. destruct (existsb (N.eqb oid) ids) eqn:E.
- apply existsb_exists in E. destruct E as (x & Hx & Hxe).
  apply N.eqb_eq in Hxe. now subst.
- apply in_or_app. right. now left.
Qed.

Lemma addToSet_idempotent oid ids :
addToSet oid (addToSet oid ids) = addToSet oid ids.
Proof. apply addToSet_present, addToSet_In. Qed.

(** ** Listing *)

Section Listing.

Variable w : World.

Lemma castOptional_ok path v :
  castable v = true ->
  castOptional path (if truthy v then v else None) w = (w, Ok (condition v)).
Proof.
  unfold castable, condition, castOptional, castPath, truthy, bind, ret, throw.
  destruct v as [s|]; [|reflexivity].
  destruct (String.eqb s EmptyString); simpl; [reflexivity|].
  destruct (castObjectId s); [reflexivity|discriminate].
Qed.

Lemma holds_agreesId v stored :
  castable v = true ->
  holds eqOptId (option_map Some (condition v)) stored = agreesId v stored.
Proof.
  unfold castable, condition, agreesId, holds.
  destruct v as [s|]; [|reflexivity].
  destruct (String.eqb s EmptyString); [reflexivity|].
  destruct (castObjectId s) as [a|]; [|discriminate].
  intros _. simpl. destruct stored; reflexivity.
Qed.

Lemma holds_agreesText v stored :
  holds eqOptString (option_map Some (if truthy v then v else None)) stored
  = agreesText v stored.
Proof.
  unfold agreesText, holds, truthy. destruct v as [s|]; [|reflexivity].
  destruct (String.eqb s EmptyString); simpl; [reflexivity|].
  destruct stored; reflexivity.
Qed.

(** What the handler answers when its identifier filters can be cast. *)
Lemma listCategories_run (q : Query.t) :
  castable (Query.businessId q) = true ->
  castable (Query.parentId q) = true ->
  listCategories q w
  = (w, json (let data := map (populateOne (docs w))
                              (sortByName (filter (selects q) (docs w))) in
              Categories data (length data))).
Proof.
  intros Hb Hp.
  unfold listCategories, tryCatch, find, castFilter, bind at 1 2 3.
  simpl f_businessId. simpl f_parentId. simpl f_isActive. simpl f_tenantId.
  rewrite (castOptional_ok "businessId" _ Hb).
  unfold bind at 1. rewrite (castOptional_ok "parentId" _ Hp).
  unfold populateEach, getDocs, bind, ret. simpl.
  match goal with
  | |- context [filter (matches ?c) _] =>
      rewrite (filter_ext (matches c) (selects q))
  end; [reflexivity|].
  intros d. unfold matches, selects. simpl.
  rewrite (holds_agreesId _ _ Hb), (holds_agreesId _ _ Hp), holds_agreesText.
  destruct (isActive d); reflexivity.
Qed.

End Listing.

(** On a query string whose members are all plain strings the untyped
    handler is the typed one. *)
Lemma listCategoriesRaw_plain (w : World) (q : Query.t) :
  listCategoriesRaw (RawQuery.plain q) w = listCategories q w.
Proof.
  destruct q as [b t p].
  unfold listCategoriesRaw, listCategories, RawQuery.plain, truthyParam,
    truthy, findRaw, castRawFilter, castParamId, castParamText.
  unfold_op. simpl.
  assert (Hfilter : forall (cb cp : option ObjectId) (ct : option string),
            filter (passes {| t_isActive := Some true;
                              t_businessId :=
                                option_map (fun o => eqOptId (Some o)) cb;
                              t_tenantId :=
                                option_map (fun s => eqOptString (Some s)) ct;
                              t_parentId :=
                                option_map (fun o => eqOptId (Some o)) cp |})
                   (docs w)
            = filter (matches {| c_isActive := Some true; c_businessId := cb;
                                 c_tenantId := ct; c_parentId := cp |})
                     (docs w)).
  { intros cb cp ct. apply filter_ext. intros d.
    unfold passes, matches, applies, holds. simpl.
    destruct cb, ct, cp; reflexivity. }
  destruct b as [b|], t as [t|], p as [p|]; simpl;
    try destruct (String.eqb b EmptyString);
    try destruct (String.eqb t EmptyString);
    try destruct (String.eqb p EmptyString); simpl;
    try destruct (castObjectId b) as [ob|]; simpl;
    try destruct (castObjectId p) as [op|]; simpl;
    try reflexivity.
  all: match goal with
       | |- context [filter (matches {| c_isActive := _; c_businessId := ?cb;
                                        c_tenantId := ?ct;
                                        c_parentId := ?cp |}) _] =>
           rewrite <- (Hfilter cb cp ct)
       end; reflexivity.
Qed.

(** C1, as the handler has it.  When every member of the query string is a
    plain string and the [businessId] and [parentId] parameters can be
    cast, a listing answers 200 and leaves the store as it is; its data are
    exactly the stored documents that are active and agree with every
    parameter that is present and not empty, each once, ascending by name,
    and each carries as children the stored documents its [subcategories]
    identifiers resolve to. *)
Theorem listCategories_selects (w : World) (q : Query.t) :
  castable (Query.businessId q) = true ->
  castable (Query.parentId q) = true ->
  exists data,
    listCategoriesRaw (RawQuery.plain q) w
    = (w, json (Categories data (length data))) /\
    Permutation (map doc data) (filter (selects q) (docs w)) /\
    (forall d, In d (map doc data) <-> In d (docs w) /\ selects q d = true) /\
    Sorted byName (map doc data) /\
    Forall (fun p => forall c,
              In c (children p) <->
              exists oid, In oid (subcategories (doc p))
                          /\ lookupId oid (docs w) = Some c) data.
Proof.
  intros Hb Hp.
  exists (map (populateOne (docs w))
            (sortByName (filter (selects q) (docs w)))).
  assert (Hdoc : forall l, map doc (map (populateOne (docs w)) l) = l).
  { intros l. rewrite map_map. simpl. apply map_id. }
  split; [rewrite listCategoriesRaw_plain; now apply listCategories_run|].
  rewrite Hdoc.
  split; [apply Permutation_sym, sortByName_perm|].
  split; [|split].
  - intros d. rewrite <- filter_In. split; intros Hin.
    + eapply Permutation_in; [apply Permutation_sym, sortByName_perm|exact Hin].
    + eapply Permutation_in; [apply sortByName_perm|exact Hin].
  - apply sortByName_sorted.
  - apply Forall_forall. intros p Hin c.
    apply in_map_iff in Hin. destruct Hin as (d & <- & _). simpl.
    apply in_expand.
Qed.

Lemma listCategories_selects_witness :
  let q := {| Query.businessId := None; Query.tenantId := Some "acme";
              Query.parentId := Some oid0 |} in
  castable (Query.businessId q) = true /\
  castable (Query.parentId q) = true /\
  exists data,
    listCategoriesRaw (RawQuery.plain q) pantry
    = (pantry, json (Categories data (length data))) /\
    Permutation (map doc data) (filter (selects q) (docs pantry)) /\
    (forall d, In d (map doc data) <->
               In d (docs pantry) /\ selects q d = true) /\
    Sorted byName (map doc data) /\
    Forall (fun p => forall c,
              In c (children p) <->
              exists oid, In oid (subcategories (doc p))
                          /\ lookupId oid (docs pantry) = Some c) data.
Proof.
  intros q. split; [reflexivity|]. split; [reflexivity|].
  apply (listCategories_selects pantry q); reflexivity.
Defined.

(** C1 as stated fails on three kinds of request.  A parameter given as the
    empty string is no condition at all: the listing with [tenantId=]
    returns Food, whose tenant is ["acme"].  A parameter that parses to an
    object is read as query operators: the listing with
    [tenantId[$ne]=acme] returns Apple, which has no tenant.  And a
    [businessId] that is no ObjectId makes [find] throw, so that the answer
    is 500 and not a result set. *)
Lemma listCategories_not_exact :
  let q := {| Query.businessId := None; Query.tenantId := Some EmptyString;
              Query.parentId := None |} in
  let notAcme : option string -> bool :=
    fun stored => negb (eqOptString (Some "acme") stored) in
  (exists p data n,
      snd (listCategoriesRaw (RawQuery.plain q) pantry)
      = json (Categories data n)
      /\ In p data
      /\ name (doc p) = "Food"
      /\ tenantId (doc p) = Some "acme"
      /\ exactText (Query.tenantId q) (tenantId (doc p)) = false)
  /\ (exists p data n,
        snd (listCategoriesRaw
               {| RawQuery.businessId := None;
                  RawQuery.tenantId := Some (Operators notAcme);
                  RawQuery.parentId := None |} pantry)
        = json (Categories data n)
        /\ In p data
        /\ name (doc p) = "Apple"
        /\ tenantId (doc p) = None)
  /\ snd (listCategoriesRaw
            (RawQuery.plain {| Query.businessId := Some "acme-ltd";
                               Query.tenantId := None;
                               Query.parentId := None |}) pantry)
     = failed 500 "Failed to fetch categories".
Proof.
  intros q notAcme. split; [|split].
  - vm_compute. do 3 eexists. split; [reflexivity|].
    split; [right; left; reflexivity|]. repeat split.
  - vm_compute. do 3 eexists. split; [reflexivity|].
    split; [left; reflexivity|]. repeat split.
  - reflexivity.
Qed.

(** C10.  A filter parameter given as the empty string, the only falsy value
    a query-string member can have, is skipped: the listing is the one the
    request without that parameter gets, whatever the store holds. *)
Theorem listCategories_ignores_empty (w : World) (b t p : option string) :
  listCategories {| Query.businessId := Some EmptyString; Query.tenantId := t;
                    Query.parentId := p |} w
  = listCategories {| Query.businessId := None; Query.tenantId := t;
                      Query.parentId := p |} w
  /\ listCategories {| Query.businessId := b;
                       Query.tenantId := Some EmptyString;
                       Query.parentId := p |} w
     = listCategories {| Query.businessId := b; Query.tenantId := None;
                         Query.parentId := p |} w
  /\ listCategories {| Query.businessId := b; Query.tenantId := t;
                       Query.parentId := Some EmptyString |} w
     = listCategories {| Query.businessId := b; Query.tenantId := t;
                         Query.parentId := None |} w.
Proof. repeat split. Qed.

(** ** Creation *)

(** C4.  A create request without [name] is answered 400, a status of its
    own (the store failure is 500), and the world is returned as it was:
    no document is inserted and no identifier is drawn. *)
Theorem createCategory_requires_name (w : World) (now : Timestamp)
    (body : CreateBody.t) :
  CreateBody.name body = None ->
  createCategory now body w = (w, failed 400 "Category name is required")
  /\ status (snd (createCategory now body w)) = 400%nat
  /\ docs (fst (createCategory now body w)) = docs w.
Proof.
  intros Hname. unfold createCategory, tryCatch. rewrite Hname. simpl.
  repeat split.
Qed.

Lemma createCategory_requires_name_witness :
  let body := {| CreateBody.name := None;
                 CreateBody.description := Some "fruit";
                 CreateBody.icon := None; CreateBody.color := None;
                 CreateBody.parentId := Some oid0;
                 CreateBody.businessId := None;
                 CreateBody.tenantId := None |} in
  CreateBody.name body = None /\
  createCategory 40 body pantry
  = (pantry, failed 400 "Category name is required")
  /\ status (snd (createCategory 40 body pantry)) = 400%nat
  /\ docs (fst (createCategory 40 body pantry)) = docs pantry.
Proof.
  intros body. split; [reflexivity|].
  apply (createCategory_requires_name pantry 40 body). reflexivity.
Defined.

(** What a create request that is answered 201 has done: the document
    [new Category] built, and the store after the two writes. *)
Lemma createCategory_run (w : World) (now : Timestamp) (body : CreateBody.t)
    (w' : World) (r : Response) :
  createCategory now body w = (w', r) ->
  status r = 201%nat ->
  exists n d,
    CreateBody.name body = Some n /\ n <> EmptyString /\
    nameTaken n (docs w) = false /\
    castable (CreateBody.parentId body) = true /\
    d = {| _id := nextId w; name := n;
           description := CreateBody.description body;
           icon := CreateBody.icon body;
           color := CreateBody.color body;
           isActive := true;
           parentId := match CreateBody.parentId body with
                       | Some p => castObjectId p
                       | None => None
                       end;
           subcategories := [];
           businessId := match CreateBody.businessId body with
                         | Some b => castObjectId b
                         | None => None
                         end;
           tenantId := CreateBody.tenantId body;
           createdAt := now; updatedAt := now |} /\
    r = created (Plain d) /\
    nextId w' = (nextId w + 1)%N /\
    docs w' =
      match CreateBody.parentId body with
      | Some p =>
          if String.eqb p EmptyString then docs w ++ [d]
          else match castObjectId p with
               | Some parent =>
                   modifyId parent
                     (applyUpdate (AddToSetSubcategories (_id d)))
                     (docs w ++ [d])
               | None => docs w ++ [d]
               end
      | None => docs w ++ [d]
      end.
Proof.
  unfold createCategory, tryCatch.
  destruct body as [n de ic co p b t]. simpl.
  destruct n as [n|]; simpl; [|intros [= <- <-]; discriminate].
  destruct (String.eqb_spec n EmptyString); simpl;
    [intros [= <- <-]; discriminate|].
  unfold_op. simpl.
  pose proof n0 as Hne. apply String.eqb_neq in n0. rewrite n0.
  destruct p as [p|]; simpl;
    [destruct (String.eqb_spec p EmptyString) as [->|Ep]; simpl;
     [|destruct (castObjectId p) as [parent|] eqn:Cp; simpl]|];
    (destruct b as [b|]; simpl; [destruct (castObjectId b) eqn:Cb; simpl|]);
    try (intros [= <- <-]; discriminate);
    (destruct (nameTaken n (docs w)) eqn:Hn; simpl;
     [intros [= <- <-]; discriminate|]).
  all: try match goal with
       | |- context [lookupId ?o ?l] =>
           destruct (lookupId o l) eqn:Hl; simpl
       end.
  all: rewrite ?String.eqb_refl; simpl.
  all: intros [= <- <-] _; exists n; eexists; simpl.
  all: repeat (split; [solve [reflexivity|assumption]|]).
  all: try reflexivity.
  all: first [ rewrite modifyId_absent; [reflexivity|assumption]
             | match goal with
               | Hl : lookupId _ _ = Some _ |- _ =>
                   etransitivity;
                   [|apply (modifyId_found _
                              (applyUpdate (AddToSetSubcategories _)) _ _ Hl)];
                   reflexivity
               end ].
Qed.


(** C3.  A create request answered 201 has first appended the new document
    to the collection; then, exactly when [parentId] was given and not empty,
    it has applied [$addToSet] with the new identifier to the parent's
    [subcategories] in the store that already holds the new document.  The
    set insertion adds the identifier, and changes nothing when the
    identifier is already there.  The response carries the new document. *)
Theorem createCategory_persists_then_links (w : World) (now : Timestamp)
    (body : CreateBody.t) (w' : World) (r : Response) :
  createCategory now body w = (w', r) ->
  status r = 201%nat ->
  exists d,
    r = created (Plain d) /\
    _id d = nextId w /\
    CreateBody.name body = Some (name d) /\
    description d = CreateBody.description body /\
    icon d = CreateBody.icon body /\
    color d = CreateBody.color body /\
    tenantId d = CreateBody.tenantId body /\
    isActive d = true /\ subcategories d = [] /\
    createdAt d = now /\ updatedAt d = now /\
    (truthy (CreateBody.parentId body) = false ->
       parentId d = None /\ docs w' = docs w ++ [d]) /\
    (truthy (CreateBody.parentId body) = true ->
       exists p parent,
         CreateBody.parentId body = Some p /\
         castObjectId p = Some parent /\
         parentId d = Some parent /\
         docs w' = modifyId parent
                     (applyUpdate (AddToSetSubcategories (_id d)))
                     (docs w ++ [d]) /\
         forall e, lookupId parent (docs w ++ [d]) = Some e ->
           exists e',
             lookupId parent (docs w') = Some e' /\
             subcategories e' = addToSet (_id d) (subcategories e) /\
             In (_id d) (subcategories e') /\
             (In (_id d) (subcategories e) -> e' = e)) /\
    (forall oid ids, addToSet oid (addToSet oid ids) = addToSet oid ids).
Proof.
  intros Hrun Hst.
  destruct (createCategory_run _ _ _ _ _ Hrun Hst)
    as (n & d & Hn & Hne & _ & Hcast & Hd & Hr & _ & Hdocs).
  assert (Hpar : parentId d = match CreateBody.parentId body with
                               | Some p => castObjectId p
                               | None => None
                               end) by now rewrite Hd.
  exists d.
  split; [exact Hr|].
  do 10 (split; [solve [rewrite Hd; simpl; solve [assumption|reflexivity]]|]).
  clear Hd.
  split; [|split; [|apply addToSet_idempotent]].
  - unfold truthy. intros Ht. rewrite Hdocs, Hpar.
    destruct (CreateBody.parentId body) as [p|]; [|now split].
    destruct (String.eqb p EmptyString) eqn:Ep; [|discriminate].
    apply String.eqb_eq in Ep. subst p. now split.
  - unfold truthy. intros Ht.
    destruct (CreateBody.parentId body) as [p|] eqn:Hp; [|discriminate].
    destruct (String.eqb p EmptyString) eqn:Ep; [discriminate|].
    destruct (castObjectId p) as [parent|] eqn:Cp.
    + exists p, parent. do 3 (split; [solve [reflexivity|assumption]|]).
      split; [exact Hdocs|]. intros e He.
      exists (applyUpdate (AddToSetSubcategories (_id d)) e).
      split; [rewrite Hdocs; now apply lookupId_modifyId_same|].
      split; [reflexivity|]. split; [apply addToSet_In|].
      intros Hin. destruct e. simpl in *. now rewrite addToSet_present.
    + unfold castable in Hcast. rewrite Ep, Cp in Hcast. discriminate.
Qed.

Lemma createCategory_persists_then_links_witness :
  createCategory 20 pizzaBody larder
  = (fst (createCategory 20 pizzaBody larder),
     snd (createCategory 20 pizzaBody larder))
  /\ status (snd (createCategory 20 pizzaBody larder)) = 201%nat
  /\ exists d,
       snd (createCategory 20 pizzaBody larder) = created (Plain d)
       /\ _id d = nextId larder
       /\ CreateBody.name pizzaBody = Some (name d).
Proof.
  split; [reflexivity|]. split; [reflexivity|].
  destruct (createCategory_persists_then_links larder 20 pizzaBody _ _
              eq_refl eq_refl) as (d & Hr & Hid & Hname & _).
  exists d. repeat split; assumption.
Defined.

(** ** What each handler computes *)

Lemma world_eta (w : World) : {| docs := docs w; nextId := nextId w |} = w.
Proof. now destruct w. Qed.

Lemma getCategory_run (w : World) (id : string) :
  getCategory id w =
  match castObjectId id with
  | None => (w, failed 500 "Failed to fetch category")
  | Some oid =>
      match lookupId oid (docs w) with
      | None => (w, failed 404 "Category not found")
      | Some d => (w, json (Expanded (populateOne (docs w) d)))
      end
  end.
Proof.
  unfold getCategory. unfold_op.
  destruct (castObjectId id) as [oid|]; [|reflexivity].
  destruct (lookupId oid (docs w)); reflexivity.
Qed.

Lemma updateCategory_run (w : World) (now : Timestamp) (id : string)
    (body : UpdateBody.t) :
  let u := SetPaths (UpdateBody.name body) (UpdateBody.description body)
                    (UpdateBody.icon body) (UpdateBody.color body)
                    (UpdateBody.isActive body) now in
  updateCategory now id body w =
  match castObjectId id with
  | None => (w, failed 500 "Failed to update category")
  | Some oid =>
      match lookupId oid (docs w) with
      | None => (w, failed 404 "Category not found")
      | Some d =>
          if negb (String.eqb (name (applyUpdate u d)) (name d))
             && nameTaken (name (applyUpdate u d)) (docs w)
          then (w, failed 500 "Failed to update category")
          else ({| docs := modifyId oid (applyUpdate u) (docs w);
                   nextId := nextId w |},
                json (Plain (applyUpdate u d)))
      end
  end.
Proof.
  intros u. unfold updateCategory. unfold_op. fold u.
  destruct (castObjectId id) as [oid|]; [|reflexivity].
  destruct (lookupId oid (docs w)) as [d|] eqn:Hd; [|reflexivity].
  destruct (negb _ && _); [reflexivity|].
  rewrite <- (modifyId_found oid (applyUpdate u) _ _ Hd). reflexivity.
Qed.

Lemma deleteCategory_run (w : World) (id : string) :
  deleteCategory id w =
  match castObjectId id with
  | None => (w, failed 500 "Failed to delete category")
  | Some oid =>
      match lookupId oid (docs w) with
      | None => (w, failed 404 "Category not found")
      | Some d =>
          if String.eqb (name d) EmptyString
          then (w, failed 500 "Failed to delete category")
          else ({| docs := modifyId oid (withIsActive false) (docs w);
                   nextId := nextId w |},
                json (Message "Category deleted successfully"))
      end
  end.
Proof.
  unfold deleteCategory. unfold_op.
  destruct (castObjectId id) as [oid|]; [|reflexivity].
  destruct (lookupId oid (docs w)) as [d|] eqn:Hd; [|reflexivity].
  simpl. destruct (String.eqb (name d) EmptyString); simpl; [reflexivity|].
  rewrite (lookupId_id _ _ _ Hd).
  rewrite <- (modifyId_found oid (withIsActive false) _ _ Hd). reflexivity.
Qed.

(** The three reading routes leave the world as it is. *)
Lemma reads_keep_world (w : World) :
  (forall q, fst (listCategories q w) = w)
  /\ (forall id, fst (getCategory id w) = w)
  /\ (forall id, fst (getSubcategories id w) = w).
Proof.
  split; [|split].
  - intros [b t p]. unfold listCategories, truthy. unfold_op. simpl.
    destruct b as [b|], p as [p|]; simpl;
      try destruct (String.eqb b EmptyString);
      try destruct (String.eqb p EmptyString); simpl;
      try destruct (castObjectId b); simpl;
      try destruct (castObjectId p); reflexivity.
  - intros id. rewrite getCategory_run.
    destruct (castObjectId id) as [oid|]; [|reflexivity].
    destruct (lookupId oid (docs w)); reflexivity.
  - intros id. unfold getSubcategories. unfold_op. simpl.
    destruct (castObjectId id); reflexivity.
Qed.

(** A create request that is not answered 201 has written nothing. *)
Lemma createCategory_failure (w : World) (now : Timestamp)
    (body : CreateBody.t) :
  status (snd (createCategory now body w)) <> 201%nat ->
  docs (fst (createCategory now body w)) = docs w.
Proof.
  unfold createCategory, tryCatch.
  destruct body as [n de ic co p b t]. simpl.
  destruct n as [n|]; simpl; [|reflexivity].
  destruct (String.eqb n EmptyString) eqn:En; simpl; [reflexivity|].
  unfold_op. simpl. rewrite En.
  destruct p as [p|]; simpl;
    [destruct (String.eqb p EmptyString) eqn:Ep; simpl;
     [|destruct (castObjectId p) as [parent|] eqn:Cp; simpl]|];
    (destruct b as [b|]; simpl; [destruct (castObjectId b) eqn:Cb; simpl|]);
    try reflexivity;
    (destruct (nameTaken n (docs w)) eqn:Hn; simpl; [reflexivity|]).
  all: try match goal with
       | |- context [lookupId ?o ?l] =>
           destruct (lookupId o l) eqn:Hl; simpl
       end.
  all: rewrite ?String.eqb_refl; simpl.
  all: intros H; now elim H.
Qed.

(** Every handler's writes are of one of the shapes of [effect]. *)
Lemma handle_effect (w : World) (now : Timestamp) (r : Request) :
  effect now w r (docs (fst (handle now r w))).
Proof.
  destruct r as [q|id|id|body|id body|id]; simpl.
  - rewrite (proj1 (reads_keep_world w)). constructor.
  - rewrite (proj1 (proj2 (reads_keep_world w))). constructor.
  - rewrite (proj2 (proj2 (reads_keep_world w))). constructor.
  - destruct (Nat.eq_dec (status (snd (createCategory now body w))) 201)
      as [Hst|Hst].
    + destruct (createCategory_run w now body _ _ (surjective_pairing _) Hst)
        as (n & d & _ & _ & _ & _ & Hd & _ & _ & Hdocs).
      rewrite Hdocs.
      assert (Hi : _id d = nextId w /\ isActive d = true
                   /\ createdAt d = now /\ updatedAt d = now)
        by (rewrite Hd; simpl; repeat split).
      destruct Hi as (H1 & H2 & H3 & H4).
      destruct (CreateBody.parentId body) as [p|];
        [destruct (String.eqb p EmptyString); [|destruct (castObjectId p)]|];
        first [now apply effect_create | now apply effect_create_link].
    + rewrite (createCategory_failure _ _ _ Hst). constructor.
  - pose proof (updateCategory_run w now id body) as Hrun. simpl in Hrun.
    rewrite Hrun.
    destruct (castObjectId id) as [oid|] eqn:Hc; [|constructor].
    destruct (lookupId oid (docs w)); [|constructor].
    destruct (negb _ && _); [constructor|]. now apply effect_update.
  - rewrite deleteCategory_run.
    destruct (castObjectId id) as [oid|] eqn:Hc; [|constructor].
    destruct (lookupId oid (docs w)) as [d|]; [|constructor].
    destruct (String.eqb (name d) EmptyString); [constructor|].
    now apply effect_delete.
Qed.

(** ** Documents stay, and keep their creation time *)

Section PerDocument.

Variables (now : Timestamp) (w : World) (r : Request).

(** What one request can do to a stored document: leave it, apply the
    update of a [PUT], add an identifier to its [subcategories], or clear
    its [isActive]. *)
Lemma handle_lookup (oid : ObjectId) (d : Category) :
  lookupId oid (docs w) = Some d ->
  exists d',
    lookupId oid (docs (fst (handle now r w))) = Some d' /\
    (d' = d
     \/ (exists id body,
           r = UpdateCategory id body /\ castObjectId id = Some oid /\
           d' = applyUpdate
                  (SetPaths (UpdateBody.name body) (UpdateBody.description body)
                            (UpdateBody.icon body) (UpdateBody.color body)
                            (UpdateBody.isActive body) now) d)
     \/ (exists body child,
           r = CreateCategory body /\
           d' = applyUpdate (AddToSetSubcategories child) d)
     \/ (exists id,
           r = DeleteCategory id /\ castObjectId id = Some oid /\
           d' = withIsActive false d)).
Proof.
  intros Hd.
  assert (Hmod : forall o f, (forall x, _id (f x) = _id x) ->
            forall ds, lookupId oid ds = Some d ->
            (o = oid /\ lookupId oid (modifyId o f ds) = Some (f d))
            \/ (o <> oid /\ lookupId oid (modifyId o f ds) = Some d)).
  { intros o f Hf ds Hds. destruct (N.eq_dec o oid) as [->|Hne].
    - left. split; [reflexivity|]. now apply lookupId_modifyId_same.
    - right. split; [exact Hne|].
      rewrite lookupId_modifyId_other; auto. }
  destruct (handle_effect w now r)
    as [r0|id body o Hc|id o Hc|body e H1 H2 H3 H4|body e parent H1 H2 H3 H4].
  - exists d. auto.
  - destruct (Hmod o (applyUpdate
             (SetPaths (UpdateBody.name body) (UpdateBody.description body)
                       (UpdateBody.icon body) (UpdateBody.color body)
                       (UpdateBody.isActive body) now))
             (fun x => eq_refl) _ Hd) as [[-> Hl]|[_ Hl]].
    + eexists. split; [exact Hl|]. right. left. now exists id, body.
    + exists d. auto.
  - destruct (Hmod o (withIsActive false) (fun x => eq_refl) _ Hd)
      as [[-> Hl]|[_ Hl]].
    + eexists. split; [exact Hl|]. right. right. right. now exists id.
    + exists d. auto.
  - exists d. split; [now apply lookupId_app|]. auto.
  - destruct (Hmod parent (applyUpdate (AddToSetSubcategories (_id e)))
                (fun x => eq_refl) _ (lookupId_app _ _ _ [e] Hd))
      as [[-> Hl]|[_ Hl]].
    + eexists. split; [exact Hl|]. right. right. left. now exists body, (_id e).
    + exists d. auto.
Qed.

End PerDocument.

(** ** Reachable worlds *)

Lemma Forall_modifyId (P : Category -> Prop) oid f ds :
  (forall d, P d -> P (f d)) -> Forall P ds -> Forall P (modifyId oid f ds).
Proof.
  intros Hf. induction 1 as [|d ds Hd Hds IH]; simpl; [constructor|].
  destruct (_id d =? oid)%N; constructor; auto.
Qed.

Lemma handle_timely (t now : Timestamp) (w : World) (r : Request) :
  timely t w -> t <= now -> timely now (fst (handle now r w)).
Proof.
  unfold timely. intros Hw Hle.
  assert (Hnow : Forall (fun d => updatedAt d <= now) (docs w)).
  { eapply Forall_impl; [|exact Hw]. simpl. intros d Hd. lia. }
  destruct (handle_effect w now r)
    as [r0|id body o Hc|id o Hc|body e H1 H2 H3 H4|body e parent H1 H2 H3 H4].
  - exact Hnow.
  - apply Forall_modifyId; [|exact Hnow]. intros d _. simpl. lia.
  - apply Forall_modifyId; [|exact Hnow]. intros d Hd. exact Hd.
  - apply Forall_app. split; [exact Hnow|]. constructor; [lia|constructor].
  - apply Forall_modifyId; [intros d Hd; exact Hd|].
    apply Forall_app. split; [exact Hnow|]. constructor; [lia|constructor].
Qed.

Lemma reachable_timely (t : Timestamp) (w : World) :
  reachable t w -> timely t w.
Proof.
  induction 1 as [t|t w now r Hr IH Hle].
  - constructor.
  - now apply handle_timely with t.
Qed.

Lemma run_reachable (trace : list (Timestamp * Request)) :
  forall t w, reachable t w -> ordered t trace = true ->
              reachable (lastTime t trace) (fst (run trace w)).
Proof.
  induction trace as [|[now r] rest IH]; simpl; intros t w Hw Ho.
  - exact Hw.
  - apply andb_prop in Ho. destruct Ho as [Hle Ho]. apply Z.leb_le in Hle.
    pose proof (reach_step t w now r Hw Hle) as Hstep.
    specialize (IH now _ Hstep Ho).
    destruct (handle now r w) as [w1 resp]. simpl in *.
    destruct (run rest w1) as [w2 resps]. exact IH.
Qed.

Lemma pantry_reachable : reachable 30 pantry.
Proof.
  exact (run_reachable
           [(10, CreateCategory foodBody); (20, CreateCategory pizzaBody);
            (30, CreateCategory appleBody)] 0 emptyWorld
           (reach_start 0) eq_refl).
Qed.

(** ** Update *)

(** On a body whose members all have the type of their path the untyped
    handler is the typed one; on a body with a member that cannot be cast
    it answers 500 and writes nothing, whatever the identifier. *)
Lemma updateCategoryRaw_typed (w : World) (now : Timestamp) (id : string)
    (b : UpdateBody.t) :
  updateCategoryRaw now id (RawUpdateBody.typed b) w
  = updateCategory now id b w.
Proof.
  destruct b as [n de ic co act].
  unfold updateCategoryRaw, updateCategory, RawUpdateBody.typed, castUpdate,
    castMember.
  destruct n, de, ic, co, act; reflexivity.
Qed.

Lemma updateCategoryRaw_uncastable (w : World) (now : Timestamp) (id : string)
    (body : RawUpdateBody.t) :
  uncastable body = true ->
  updateCategoryRaw now id body w = (w, failed 500 "Failed to update category").
Proof.
  destruct body as [n de ic co act].
  unfold updateCategoryRaw, uncastable, castUpdate, castMember, tryCatch,
    bind, ret, throw. simpl.
  destruct n as [[?|]|]; simpl; trivial;
    destruct de as [[?|]|]; simpl; trivial;
    destruct ic as [[?|]|]; simpl; trivial;
    destruct co as [[?|]|]; simpl; trivial;
    destruct act as [[?|]|]; simpl; trivial; discriminate.
Qed.

Lemma castable_is_typed (body : RawUpdateBody.t) :
  uncastable body = false -> exists b, body = RawUpdateBody.typed b.
Proof.
  destruct body as [n de ic co act]. unfold uncastable. simpl.
  intros H. repeat (apply orb_false_elim in H; destruct H as [H ?]).
  assert (Hm : forall A (v : option (Member A)),
            match v with Some Uncastable => true | _ => false end = false ->
            exists o, v = option_map Given o).
  { intros A [[a|]|] Hv; [exists (Some a)|discriminate|exists None];
      reflexivity. }
  destruct (Hm _ n) as (n' & ->); trivial.
  destruct (Hm _ de) as (de' & ->); trivial.
  destruct (Hm _ ic) as (ic' & ->); trivial.
  destruct (Hm _ co) as (co' & ->); trivial.
  destruct (Hm _ act) as (act' & ->); trivial.
  now exists (UpdateBody.mk n' de' ic' co' act').
Qed.

(** C5, as the handler has it.  An update request on a stored category: a
    body member that is absent leaves its path as stored; [parentId],
    [subcategories], [businessId] and [tenantId], as well as [_id] and
    [createdAt], are as stored; every other document is as stored.  When
    the request is answered 200, every member of the body is written,
    [updatedAt] is the clock reading of the request, whatever it was
    before, and the response carries the updated document; so [updatedAt]
    is not earlier than it was when the clock reading is not.  The only
    other answer is 500, on a member that cannot be cast or on a new name
    that another document holds, which writes nothing. *)
Theorem updateCategory_frame (w : World) (now : Timestamp) (id : string)
    (body : RawUpdateBody.t) (oid : ObjectId) (d : Category) :
  castObjectId id = Some oid ->
  lookupId oid (docs w) = Some d ->
  let w' := fst (updateCategoryRaw now id body w) in
  let r := snd (updateCategoryRaw now id body w) in
  exists d',
    lookupId oid (docs w') = Some d' /\
    ((RawUpdateBody.name body = None -> name d' = name d) /\
     (RawUpdateBody.description body = None ->
      description d' = description d) /\
     (RawUpdateBody.icon body = None -> icon d' = icon d) /\
     (RawUpdateBody.color body = None -> color d' = color d) /\
     (RawUpdateBody.isActive body = None -> isActive d' = isActive d)) /\
    (parentId d' = parentId d /\ subcategories d' = subcategories d /\
     businessId d' = businessId d /\ tenantId d' = tenantId d /\
     _id d' = _id d /\ createdAt d' = createdAt d) /\
    (updatedAt d <= now -> updatedAt d <= updatedAt d') /\
    (forall o, o <> oid -> lookupId o (docs w') = lookupId o (docs w)) /\
    (status r = 200%nat ->
       r = json (Plain d') /\ updatedAt d' = now /\
       (forall v, RawUpdateBody.name body = Some (Given v) -> name d' = v) /\
       (forall v, RawUpdateBody.description body = Some (Given v) ->
                  description d' = Some v) /\
       (forall v, RawUpdateBody.icon body = Some (Given v) ->
                  icon d' = Some v) /\
       (forall v, RawUpdateBody.color body = Some (Given v) ->
                  color d' = Some v) /\
       (forall v, RawUpdateBody.isActive body = Some (Given v) ->
                  isActive d' = v)) /\
    (status r = 200%nat
     \/ (r = failed 500 "Failed to update category" /\ w' = w /\
         (uncastable body = true
          \/ exists v, RawUpdateBody.name body = Some (Given v)
                       /\ v <> name d /\ nameTaken v (docs w) = true))).
Proof.
  intros Hc Hd w' r. subst w' r.
  destruct (uncastable body) eqn:Hbad.
  - rewrite (updateCategoryRaw_uncastable w now id body Hbad). simpl.
    exists d. split; [exact Hd|].
    split; [repeat split|]. split; [repeat split|].
    split; [intros _; lia|]. split; [reflexivity|].
    split; [discriminate|]. right. auto.
  - destruct (castable_is_typed body Hbad) as (b & ->).
    rewrite updateCategoryRaw_typed.
    pose proof (updateCategory_run w now id b) as Hrun. simpl in Hrun.
    rewrite Hrun, Hc, Hd. clear Hrun.
    destruct b as [n de ic co act]. simpl.
    destruct (negb (String.eqb (assign n (name d)) (name d))
              && nameTaken (assign n (name d)) (docs w)) eqn:Hdup; simpl.
    + exists d. split; [exact Hd|].
      split; [repeat split|]. split; [repeat split|].
      split; [intros _; lia|]. split; [reflexivity|].
      split; [discriminate|].
      right. split; [reflexivity|]. split; [reflexivity|]. right.
      apply andb_prop in Hdup. destruct Hdup as [Hne Htaken].
      destruct n as [v|]; simpl in *.
      * exists v. split; [reflexivity|]. split; [|exact Htaken].
        apply String.eqb_neq. now destruct (String.eqb v (name d)).
      * now rewrite String.eqb_refl in Hne.
    + exists (applyUpdate (SetPaths n de ic co act now) d).
      split; [now apply lookupId_modifyId_same|]. simpl.
      split.
      { destruct n, de, ic, co, act; repeat split;
          solve [reflexivity | discriminate]. }
      split; [repeat split|]. split; [tauto|].
      split; [intros o Ho; now apply lookupId_modifyId_other|].
      split; [|now left].
      intros _. split; [reflexivity|]. split; [reflexivity|].
      destruct n, de, ic, co, act; repeat split; intros v Hv;
        solve [now injection Hv as -> | discriminate Hv].
Qed.

Lemma updateCategory_frame_witness :
  castObjectId oid1 = Some 1%N /\
  exists d,
    lookupId 1%N (docs pantry) = Some d /\
    exists d',
      lookupId 1%N
        (docs (fst (updateCategoryRaw 40 oid1
                      (RawUpdateBody.typed pastaBody) pantry)))
      = Some d'
      /\ description d' = description d
      /\ tenantId d' = tenantId d
      /\ updatedAt d <= updatedAt d'.
Proof.
  split; [reflexivity|].
  eexists. split; [reflexivity|].
  destruct (updateCategory_frame pantry 40 oid1
              (RawUpdateBody.typed pastaBody) 1%N _ eq_refl eq_refl)
    as (d' & Hl & (_ & Hde & _) & (_ & _ & _ & Hten & _) & Hup & _).
  exists d'. split; [exact Hl|]. split; [now apply Hde|].
  split; [exact Hten|]. apply Hup. simpl. lia.
Defined.

(** C5 as stated fails when the clock was set back: the handler writes
    [new Date()] without looking at the stored value.  Food is created at
    clock reading 10; an update handled at clock reading 5 is answered 200
    and leaves [updatedAt] at 5. *)
Lemma updateCategory_sets_clock_back :
  (exists d, resolves larder oid0 d /\ updatedAt d = 10)
  /\ status (snd (updateCategoryRaw 5 oid0 (RawUpdateBody.typed pastaBody)
                    larder)) = 200%nat
  /\ exists d',
       resolves (fst (updateCategoryRaw 5 oid0
                        (RawUpdateBody.typed pastaBody) larder)) oid0 d'
       /\ updatedAt d' = 5 /\ updatedAt d' < 10.
Proof.
  split; [|split; [reflexivity|]].
  - eexists. split; [exists 0%N; split; reflexivity|reflexivity].
  - eexists. split; [exists 0%N; split; reflexivity|].
    split; [reflexivity|]. simpl. lia.
Qed.

(** ** Lookup by identifier *)

(** C2, as the handler has it.  When the identifier resolves to a stored
    document the answer is 200 with that document, its [subcategories]
    replaced by the documents they resolve to, whether the document is
    active or not.  When the identifier is an ObjectId that resolves to
    nothing the answer is 404, "Category not found". *)
Theorem getCategory_by_identifier (w : World) (id : string) :
  (forall d, resolves w id d ->
     getCategory id w = (w, json (Expanded (populateOne (docs w) d)))
     /\ doc (populateOne (docs w) d) = d
     /\ forall c, In c (children (populateOne (docs w) d)) <->
                  exists oid, In oid (subcategories d)
                              /\ lookupId oid (docs w) = Some c)
  /\ (castObjectId id <> None -> (forall d, ~ resolves w id d) ->
      getCategory id w = (w, failed 404 "Category not found")).
Proof.
  rewrite getCategory_run. split.
  - intros d (oid & Hc & Hd). rewrite Hc, Hd.
    split; [reflexivity|]. split; [reflexivity|].
    intros c. apply in_expand.
  - intros Hc Hnone.
    destruct (castObjectId id) as [oid|] eqn:Ho; [|now elim Hc].
    destruct (lookupId oid (docs w)) as [d|] eqn:Hd; [|reflexivity].
    elim (Hnone d). exists oid. now split.
Qed.

Lemma getCategory_by_identifier_witness :
  (exists d,
     resolves closedPantry oid0 d /\ isActive d = false /\
     getCategory oid0 closedPantry
     = (closedPantry, json (Expanded (populateOne (docs closedPantry) d))))
  /\ castObjectId oid9 <> None
  /\ (forall d, ~ resolves closedPantry oid9 d)
  /\ getCategory oid9 closedPantry
     = (closedPantry, failed 404 "Category not found").
Proof.
  assert (Hnone : forall d, ~ resolves closedPantry oid9 d).
  { intros d (oid & Hc & Hd). injection Hc as <-. discriminate Hd. }
  split; [|split; [discriminate|split; [exact Hnone|]]].
  - eexists. split; [exists 0%N; split; reflexivity|].
    split; [reflexivity|].
    apply (proj1 (getCategory_by_identifier closedPantry oid0)).
    exists 0%N. split; reflexivity.
  - apply (proj2 (getCategory_by_identifier closedPantry oid9));
      [discriminate|exact Hnone].
Defined.

(** C2 as stated fails on an identifier that is no ObjectId: it resolves to
    no stored document, and the answer is the generic failure, not 404. *)
Lemma getCategory_malformed_identifier :
  (forall d, ~ resolves pantry "food" d)
  /\ getCategory "food" pantry
     = (pantry, failed 500 "Failed to fetch category").
Proof.
  split; [|reflexivity].
  intros d (oid & Hc & _). discriminate Hc.
Qed.

(** ** Unknown identifiers *)

(** C9, as the handlers have it.  An identifier that is an ObjectId and
    resolves to no stored document gets 404 from the lookup and the soft
    delete, and from the update when every member of its body can be cast;
    none of them writes.  An update whose body holds a member that cannot
    be cast gets 500 also then: the cast of the update document comes
    before the lookup. *)
Theorem unknown_identifier_404 (w : World) (now : Timestamp) (id : string)
    (body : RawUpdateBody.t) :
  castObjectId id <> None ->
  (forall d, ~ resolves w id d) ->
  getCategory id w = (w, failed 404 "Category not found")
  /\ deleteCategory id w = (w, failed 404 "Category not found")
  /\ (uncastable body = false ->
      updateCategoryRaw now id body w
      = (w, failed 404 "Category not found"))
  /\ (uncastable body = true ->
      updateCategoryRaw now id body w
      = (w, failed 500 "Failed to update category")).
Proof.
  intros Hc Hnone.
  assert (Hmiss : exists oid, castObjectId id = Some oid
                              /\ lookupId oid (docs w) = None).
  { destruct (castObjectId id) as [oid|] eqn:Ho; [|now elim Hc].
    exists oid. split; [reflexivity|].
    destruct (lookupId oid (docs w)) as [d|] eqn:Hd; [|reflexivity].
    elim (Hnone d). exists oid. now split. }
  destruct Hmiss as (oid & Ho & Hd).
  split; [now rewrite getCategory_run, Ho, Hd|].
  split; [now rewrite deleteCategory_run, Ho, Hd|].
  split.
  - intros Hok. destruct (castable_is_typed body Hok) as (b & ->).
    rewrite updateCategoryRaw_typed.
    pose proof (updateCategory_run w now id b) as Hrun. simpl in Hrun.
    now rewrite Hrun, Ho, Hd.
  - apply updateCategoryRaw_uncastable.
Qed.

Lemma unknown_identifier_404_witness :
  castObjectId oid9 <> None
  /\ (forall d, ~ resolves pantry oid9 d)
  /\ getCategory oid9 pantry = (pantry, failed 404 "Category not found")
  /\ deleteCategory oid9 pantry = (pantry, failed 404 "Category not found")
  /\ updateCategoryRaw 40 oid9 (RawUpdateBody.typed pastaBody) pantry
     = (pantry, failed 404 "Category not found").
Proof.
  assert (Hnone : forall d, ~ resolves pantry oid9 d).
  { intros d (oid & Hc & Hd). injection Hc as <-. discriminate Hd. }
  split; [discriminate|]. split; [exact Hnone|].
  destruct (unknown_identifier_404 pantry 40 oid9
              (RawUpdateBody.typed pastaBody)) as (Hg & Hdel & Hup & _);
    [discriminate|exact Hnone|].
  split; [exact Hg|]. split; [exact Hdel|]. now apply Hup.
Defined.

(** C9 as stated fails in two ways.  Identifiers that are no ObjectId
    resolve to no stored document, and each of the three routes answers
    500 on them.  And an update on an identifier that is an ObjectId of no
    stored document answers 500 when a member of its body cannot be cast,
    as [isActive: 'maybe']. *)
Lemma unknown_identifier_500 :
  (forall id, In id ["42"; "pizza"; "0123456789abcdefghijklmn"] ->
     forall d, ~ resolves pantry id d)
  /\ status (snd (getCategory "42" pantry)) = 500%nat
  /\ status (snd (updateCategoryRaw 40 "pizza"
                    (RawUpdateBody.typed pastaBody) pantry)) = 500%nat
  /\ status (snd (deleteCategory "0123456789abcdefghijklmn" pantry)) = 500%nat
  /\ castObjectId oid9 <> None
  /\ (forall d, ~ resolves pantry oid9 d)
  /\ status (snd (updateCategoryRaw 40 oid9
                    {| RawUpdateBody.name := None;
                       RawUpdateBody.description := None;
                       RawUpdateBody.icon := None;
                       RawUpdateBody.color := None;
                       RawUpdateBody.isActive := Some Uncastable |}
                    pantry)) = 500%nat.
Proof.
  split.
  { intros id Hin d (oid & Hc & _).
    simpl in Hin. destruct Hin as [<-|[<-|[<-|[]]]]; discriminate Hc. }
  do 3 (split; [reflexivity|]). split; [discriminate|].
  split; [|reflexivity].
  intros d (oid & Hc & Hd). injection Hc as <-. discriminate Hd.
Qed.

(** ** Soft delete *)

(** The soft delete of a stored category whose name passes validation:
    the stored document is the loaded one with [isActive] cleared, every
    other document, its children among them, is as stored, none is removed,
    and the answer is the confirmation message. *)
Lemma deleteCategory_soft (w : World) (id : string) (d : Category) :
  resolves w id d -> name d <> EmptyString ->
  let w' := fst (deleteCategory id w) in
  snd (deleteCategory id w) = json (Message "Category deleted successfully")
  /\ resolves w' id (withIsActive false d)
  /\ (forall oid, castObjectId id <> Some oid ->
        lookupId oid (docs w') = lookupId oid (docs w))
  /\ length (docs w') = length (docs w).
Proof.
  intros (oid & Hc & Hd) Hname. rewrite deleteCategory_run, Hc, Hd.
  apply String.eqb_neq in Hname. rewrite Hname. simpl.
  split; [reflexivity|]. split; [|split].
  - exists oid. split; [exact Hc|]. now apply lookupId_modifyId_same.
  - intros o Ho. apply lookupId_modifyId_other; [reflexivity|congruence].
  - apply modifyId_length.
Qed.

(** The soft delete writes [isActive] and nothing else: [updatedAt] is as
    it was. *)
Lemma deleteCategory_keeps_updatedAt (w : World) (id : string) (d : Category) :
  resolves w id d ->
  exists d', resolves (fst (deleteCategory id w)) id d'
             /\ updatedAt d' = updatedAt d.
Proof.
  intros (oid & Hc & Hd). rewrite deleteCategory_run, Hc, Hd.
  destruct (String.eqb (name d) EmptyString); simpl.
  - exists d. split; [now exists oid|reflexivity].
  - exists (withIsActive false d). split; [|reflexivity].
    exists oid. split; [exact Hc|]. now apply lookupId_modifyId_same.
Qed.

(** No request changes the [createdAt] of a stored document. *)
Lemma handle_keeps_createdAt (w : World) (now : Timestamp) (r : Request)
    (oid : ObjectId) (d : Category) :
  lookupId oid (docs w) = Some d ->
  exists d', lookupId oid (docs (fst (handle now r w))) = Some d'
             /\ createdAt d' = createdAt d.
Proof.
  intros Hd. destruct (handle_lookup now w r oid d Hd) as (d' & Hl & Hcase).
  exists d'. split; [exact Hl|].
  destruct Hcase as [->|[(id & body & _ & _ & ->)|[(body & c & _ & ->)
                    |(id & _ & _ & ->)]]]; reflexivity.
Qed.

(** C6 at the input on which the handler fails.  Food is created, its name
    is set to the empty string by an update, which runs no validator, and
    the soft delete then answers 500: [save] validates the loaded document,
    [name] is [required], and the document stays active. *)
Theorem deleteCategory_rejects_nameless :
  let trace := [(10, CreateCategory foodBody);
                (20, UpdateCategory oid0 namelessBody);
                (30, DeleteCategory oid0)] in
  map status (snd (run trace emptyWorld)) = [201; 200; 500]%nat
  /\ nth 2 (snd (run trace emptyWorld)) (json (Message EmptyString))
     = failed 500 "Failed to delete category"
  /\ exists d,
       resolves (fst (run trace emptyWorld)) oid0 d
       /\ name d = EmptyString /\ isActive d = true.
Proof.
  split; [reflexivity|]. split; [reflexivity|].
  eexists. split; [exists 0%N; split; reflexivity|].
  split; reflexivity.
Qed.

(** C7 at the input on which the handler fails.  Food is created at 10 and
    soft-deleted at 20; both requests succeed, and the stored [updatedAt]
    is still 10. *)
Theorem deleteCategory_stale_updatedAt :
  let trace := [(10, CreateCategory foodBody); (20, DeleteCategory oid0)] in
  map status (snd (run trace emptyWorld)) = [201; 200]%nat
  /\ exists d,
       resolves (fst (run trace emptyWorld)) oid0 d
       /\ isActive d = false
       /\ createdAt d = 10 /\ updatedAt d = 10.
Proof.
  split; [reflexivity|].
  eexists. split; [exists 0%N; split; reflexivity|].
  repeat split.
Qed.

(** ** The active flag over time *)

Lemma handle_inactive (w : World) (now : Timestamp) (r : Request)
    (oid : ObjectId) (d : Category) :
  lookupId oid (docs w) = Some d -> isActive d = false ->
  reactivates oid r = false ->
  exists d', lookupId oid (docs (fst (handle now r w))) = Some d'
             /\ isActive d' = false.
Proof.
  intros Hd Hoff Hr.
  destruct (handle_lookup now w r oid d Hd) as (d' & Hl & Hcase).
  exists d'. split; [exact Hl|].
  destruct Hcase as [->|[(id & body & -> & Hc & ->)|[(body & c & _ & ->)
                    |(id & _ & _ & ->)]]]; trivial.
  simpl in *. rewrite Hc in Hr.
  destruct (UpdateBody.isActive body) as [[|]|]; simpl; trivial.
  now rewrite N.eqb_refl in Hr.
Qed.

(** C8, as the handlers have it.  A category that is inactive stays
    inactive through every sequence of requests that holds no update of
    that category with [isActive: true]: the soft delete, the creation of
    other categories, the reads and every other update leave it off. *)
Theorem inactive_until_revived (oid : ObjectId)
    (trace : list (Timestamp * Request)) :
  forall (w : World) (d : Category),
    lookupId oid (docs w) = Some d -> isActive d = false ->
    forallb (fun step => negb (reactivates oid (snd step))) trace = true ->
    exists d', lookupId oid (docs (fst (run trace w))) = Some d'
               /\ isActive d' = false.
Proof.
  induction trace as [|[now r] rest IH]; simpl; intros w d Hd Hoff Hno.
  - now exists d.
  - apply andb_prop in Hno. destruct Hno as [Hr Hrest].
    apply negb_true_iff in Hr.
    destruct (handle_inactive w now r oid d Hd Hoff Hr) as (d1 & Hd1 & Hoff1).
    specialize (IH _ _ Hd1 Hoff1 Hrest).
    destruct (handle now r w) as [w1 resp]. simpl in *.
    destruct (run rest w1) as [w2 resps]. exact IH.
Qed.

Lemma inactive_until_revived_witness :
  let trace := [(50, UpdateCategory oid0 pastaBody);
                (60, DeleteCategory oid0);
                (70, CreateCategory
                       {| CreateBody.name := Some "Salad";
                          CreateBody.description := None;
                          CreateBody.icon := None; CreateBody.color := None;
                          CreateBody.parentId := Some oid0;
                          CreateBody.businessId := None;
                          CreateBody.tenantId := None |});
                (80, GetCategory oid0)] in
  (exists d, lookupId 0%N (docs closedPantry) = Some d /\ isActive d = false)
  /\ forallb (fun step => negb (reactivates 0%N (snd step))) trace = true
  /\ exists d', lookupId 0%N (docs (fst (run trace closedPantry))) = Some d'
                /\ isActive d' = false.
Proof.
  intros trace.
  split; [eexists; split; reflexivity|]. split; [reflexivity|].
  eapply (inactive_until_revived 0%N trace closedPantry); reflexivity.
Defined.

(** C8 as stated fails: an update with [isActive: true] switches a
    soft-deleted category back on.  Food is created, soft-deleted at 20,
    and active again after the update at 30. *)
Lemma update_revives :
  let deleted := [(10, CreateCategory foodBody); (20, DeleteCategory oid0)] in
  let revived := deleted ++ [(30, UpdateCategory oid0 reviveBody)] in
  (exists d, resolves (fst (run deleted emptyWorld)) oid0 d
             /\ isActive d = false)
  /\ map status (snd (run revived emptyWorld)) = [201; 200; 200]%nat
  /\ exists d, resolves (fst (run revived emptyWorld)) oid0 d
               /\ isActive d = true.
Proof.
  split; [|split; [reflexivity|]].
  - eexists. split; [exists 0%N; split; reflexivity|reflexivity].
  - eexists. split; [exists 0%N; split; reflexivity|reflexivity].
Qed.

(** * Further properties of the handlers *)

(** ** More on in-place modification *)

Lemma map_modifyId {B} (g : Category -> B) oid f ds :
  (forall x, g (f x) = g x) -> map g (modifyId oid f ds) = map g ds.
Proof.
  intros Hg. induction ds as [|e ds IH]; simpl; [reflexivity|].
  destruct (_id e =? oid)%N; simpl; [now rewrite Hg|now rewrite IH].
Qed.

Lemma In_modifyId oid f ds x :
  In x (modifyId oid f ds) ->
  In x ds \/ exists d, In d ds /\ _id d = oid /\ x = f d.
Proof.
  induction ds as [|e ds IH]; simpl; [tauto|].
  destruct (_id e =? oid)%N eqn:E; simpl.
  - intros [<-|Hin]; [|tauto].
    right. exists e. apply N.eqb_eq in E. auto.
  - intros [<-|Hin]; [tauto|].
    destruct (IH Hin) as [H|(d & Hd & Hi & Hx)]; [tauto|].
    right. exists d. auto.
Qed.

Lemma modifyId_In oid f ds d :
  In d ds -> exists d', In d' (modifyId oid f ds) /\ (d' = d \/ d' = f d).
Proof.
  induction ds as [|e ds IH]; simpl; [tauto|].
  destruct (_id e =? oid)%N; simpl.
  - intros [->|Hin].
    + exists (f d). auto.
    + exists d. auto.
  - intros [->|Hin].
    + exists d. auto.
    + destruct (IH Hin) as (d' & Hd' & Hc). exists d'. auto.
Qed.

Lemma modifyId_twice oid f ds :
  (forall x, _id (f x) = _id x) -> (forall x, f (f x) = f x) ->
  modifyId oid f (modifyId oid f ds) = modifyId oid f ds.
Proof.
  intros Hid Hff. induction ds as [|e ds IH]; simpl; [reflexivity|].
  destruct (_id e =? oid)%N eqn:E; simpl.
  - now rewrite Hid, E, Hff.
  - now rewrite E, IH.
Qed.

Lemma nameTaken_false n ds : nameTaken n ds = false <-> ~ In n (map name ds).
Proof.
  unfold nameTaken. induction ds as [|e ds IH]; simpl; [tauto|].
  rewrite orb_false_iff, IH, String.eqb_neq. tauto.
Qed.

Lemma nameTaken_true n ds : nameTaken n ds = true <-> In n (map name ds).
Proof.
  destruct (nameTaken n ds) eqn:E.
  - split; [intros _|reflexivity].
    destruct (in_dec string_dec n (map name ds)) as [H|H]; [exact H|].
    apply nameTaken_false in H. congruence.
  - apply nameTaken_false in E. split; [discriminate|tauto].
Qed.

Lemma In_modifyId_found oid f ds d x :
  lookupId oid ds = Some d ->
  In x (modifyId oid f ds) -> In x ds \/ x = f d.
Proof.
  induction ds as [|e ds IH]; simpl; [discriminate|].
  destruct (_id e =? oid)%N; simpl.
  - intros [= ->] [<-|Hin]; tauto.
  - intros Hl [<-|Hin]; [tauto|]. destruct (IH Hl Hin); tauto.
Qed.

(** Renaming the document an identifier resolves to keeps the names
    distinct when the new name is the old one or is held by no document. *)
Lemma NoDup_names_modifyId oid f ds d :
  NoDup (map name ds) ->
  lookupId oid ds = Some d ->
  (name (f d) = name d \/ ~ In (name (f d)) (map name ds)) ->
  NoDup (map name (modifyId oid f ds)).
Proof.
  induction ds as [|e ds IH]; simpl; [constructor|].
  intros Hnd Hl Hname. inversion Hnd as [|? ? Hnotin Hnd']; subst.
  destruct (_id e =? oid)%N; simpl.
  - injection Hl as ->. constructor; [|exact Hnd'].
    destruct Hname as [->|Hfree]; [exact Hnotin|]. tauto.
  - constructor.
    + intros Hin. apply in_map_iff in Hin. destruct Hin as (x & Hx & Hxin).
      destruct (In_modifyId_found _ _ _ _ _ Hl Hxin) as [Hold | ->].
      * apply Hnotin. rewrite <- Hx. now apply in_map.
      * destruct Hname as [Hsame|Hfree].
        -- apply Hnotin. rewrite <- Hx, Hsame.
           apply in_map. eapply lookupId_In. exact Hl.
        -- apply Hfree. rewrite Hx. now left.
    + apply IH; trivial. destruct Hname as [H|H]; [now left|].
      right. tauto.
Qed.

(** ** Every request as a transition *)

(** The identifier counter never goes back. *)
Lemma createCategory_nextId (w : World) (now : Timestamp)
    (body : CreateBody.t) :
  (nextId w <= nextId (fst (createCategory now body w)))%N.
Proof.
  unfold createCategory, tryCatch.
  destruct body as [n de ic co p b t]. simpl.
  destruct n as [n|]; simpl; [|lia].
  destruct (String.eqb n EmptyString) eqn:En; simpl; [lia|].
  unfold_op. simpl. rewrite En.
  destruct p as [p|]; simpl;
    [destruct (String.eqb p EmptyString) eqn:Ep; simpl;
     [|destruct (castObjectId p) as [parent|] eqn:Cp; simpl]|];
    (destruct b as [b|]; simpl; [destruct (castObjectId b) eqn:Cb; simpl|]);
    try lia;
    (destruct (nameTaken n (docs w)) eqn:Hn; simpl; [lia|]).
  all: try match goal with
       | |- context [lookupId ?o ?l] =>
           destruct (lookupId o l) eqn:Hl; simpl
       end.
  all: rewrite ?String.eqb_refl; simpl; lia.
Qed.

Ltac nothing_written := simpl; apply tr_none; [reflexivity|lia].

Lemma handle_transition (w : World) (now : Timestamp) (r : Request) :
  transition now w r (fst (handle now r w)).
Proof.
  destruct r as [q|id|id|body|id body|id]; simpl.
  - rewrite (proj1 (reads_keep_world w)). nothing_written.
  - rewrite (proj1 (proj2 (reads_keep_world w))). nothing_written.
  - rewrite (proj2 (proj2 (reads_keep_world w))).
    nothing_written.
  - destruct (Nat.eq_dec (status (snd (createCategory now body w))) 201)
      as [Hst|Hst].
    + destruct (createCategory_run w now body _ _ (surjective_pairing _) Hst)
        as (n & d & _ & Hne & Hfree & Hcast & Hd & _ & Hnext & Hdocs).
      assert (Hi : _id d = nextId w /\ name d = n /\ isActive d = true
                   /\ subcategories d = []
                   /\ createdAt d = now /\ updatedAt d = now
                   /\ parentId d = match CreateBody.parentId body with
                                   | Some p => castObjectId p
                                   | None => None
                                   end)
        by (rewrite Hd; simpl; repeat split).
      destruct Hi as (H1 & H2 & H3 & H4 & H5 & H6 & H7).
      apply tr_create with d; trivial; try congruence.
      rewrite Hdocs.
      destruct (CreateBody.parentId body) as [p|]; [|now left].
      destruct (String.eqb p EmptyString); [now left|].
      destruct (castObjectId p) as [parent|]; [|now left].
      right. now exists parent.
    + apply tr_none.
      * now apply createCategory_failure.
      * apply createCategory_nextId.
  - pose proof (updateCategory_run w now id body) as Hrun. simpl in Hrun.
    rewrite Hrun.
    destruct (castObjectId id) as [oid|] eqn:Hc;
      [|nothing_written].
    destruct (lookupId oid (docs w)) as [d|] eqn:Hd;
      [|nothing_written].
    match goal with
    | |- context [negb ?a && ?b] => destruct a eqn:Ha; destruct b eqn:Hb
    end; simpl.
    + apply tr_update with oid d; trivial. left. now apply String.eqb_eq.
    + apply tr_update with oid d; trivial. left. now apply String.eqb_eq.
    + nothing_written.
    + apply tr_update with oid d; trivial. now right.
  - rewrite deleteCategory_run.
    destruct (castObjectId id) as [oid|] eqn:Hc;
      [|nothing_written].
    destruct (lookupId oid (docs w)) as [d|] eqn:Hd;
      [|nothing_written].
    destruct (String.eqb (name d) EmptyString) eqn:Hn;
      [nothing_written|].
    apply tr_delete with oid d; trivial. now apply String.eqb_neq.
Qed.

(** ** The invariants of the store *)

Lemma NoDup_snoc {A} (l : list A) (x : A) :
  NoDup l -> ~ In x l -> NoDup (l ++ [x]).
Proof.
  intros Hl Hx. apply NoDup_app; [exact Hl|repeat constructor; tauto|].
  intros a Ha [<-|[]]. tauto.
Qed.

Lemma In_addToSet oid ids c : In c (addToSet oid ids) -> c = oid \/ In c ids.
Proof.
  unfold addToSet. destruct (existsb (N.eqb oid) ids); [tauto|].
  intros Hin. apply in_app_or in Hin. simpl in Hin. intuition.
Qed.

Lemma addToSet_keeps oid ids c : In c ids -> In c (addToSet oid ids).
Proof.
  unfold addToSet. destruct (existsb (N.eqb oid) ids); [tauto|].
  intros Hin. apply in_or_app. now left.
Qed.

Lemma NoDup_addToSet oid ids : NoDup ids -> NoDup (addToSet oid ids).
Proof.
  intros Hnd. unfold addToSet.
  destruct (existsb (N.eqb oid) ids) eqn:E; [exact Hnd|].
  apply NoDup_snoc; [exact Hnd|]. intros Hin.
  assert (existsb (N.eqb oid) ids = true); [|congruence].
  apply existsb_exists. exists oid. split; [exact Hin|apply N.eqb_refl].
Qed.

(** A modification that keeps the identifier, the parent and the children
    of a document keeps the back-references sound. *)
Lemma linked_modifyId oid f ds :
  (forall x, _id (f x) = _id x) ->
  (forall x, parentId (f x) = parentId x) ->
  (forall x, subcategories (f x) = subcategories x) ->
  linked ds -> linked (modifyId oid f ds).
Proof.
  intros Hid Hpar Hsub Hl p' c Hp' Hc.
  assert (Hp : exists p, In p ds /\ _id p' = _id p
                         /\ subcategories p' = subcategories p).
  { apply In_modifyId in Hp'. destruct Hp' as [Hp'|(p & Hp & _ & ->)].
    - exists p'. auto.
    - exists p. auto. }
  destruct Hp as (p & Hp & Hpid & Hpsub). rewrite Hpsub in Hc.
  destruct (Hl p c Hp Hc) as (e & He & Heid & Hepar).
  destruct (modifyId_In oid f ds e He) as (e' & He' & [->| ->]).
  - exists e. rewrite Hpid. auto.
  - exists (f e). rewrite Hid, Hpar, Hpid. auto.
Qed.

(** Inserting a child without children of its own and adding its
    identifier to its parent's set keeps the back-references sound. *)
Lemma linked_insert ds d :
  subcategories d = [] -> linked ds -> linked (ds ++ [d]).
Proof.
  intros Hsub Hl p c Hp Hc. apply in_app_or in Hp.
  destruct Hp as [Hp|[<-|[]]].
  - destruct (Hl p c Hp Hc) as (e & He & Hrest).
    exists e. split; [apply in_or_app; now left|exact Hrest].
  - rewrite Hsub in Hc. destruct Hc.
Qed.

Lemma linked_link ds d parent :
  subcategories d = [] -> parentId d = Some parent -> linked ds ->
  linked (modifyId parent (applyUpdate (AddToSetSubcategories (_id d)))
            (ds ++ [d])).
Proof.
  intros Hsub Hpar Hl.
  pose proof (linked_insert ds d Hsub Hl) as Hl'.
  set (g := applyUpdate (AddToSetSubcategories (_id d))).
  assert (Hkeep : forall e, In e (ds ++ [d]) ->
            exists e', In e' (modifyId parent g (ds ++ [d]))
                       /\ _id e' = _id e /\ parentId e' = parentId e).
  { intros e He.
    destruct (modifyId_In parent g _ e He) as (e' & He' & [->| ->]).
    - exists e. auto.
    - exists (g e). auto. }
  intros p' c Hp' Hc. apply In_modifyId in Hp'.
  destruct Hp' as [Hp'|(p & Hp & Hpid & ->)].
  - destruct (Hl' p' c Hp' Hc) as (e & He & Heid & Hepar).
    destruct (Hkeep e He) as (e' & He' & Hid' & Hpar').
    exists e'. rewrite Hid', Hpar'. auto.
  - simpl in Hc. apply In_addToSet in Hc. destruct Hc as [->|Hc].
    + destruct (Hkeep d) as (e' & He' & Hid' & Hpar').
      { apply in_or_app. right. now left. }
      exists e'. rewrite Hid', Hpar'. simpl. now rewrite Hpid.
    + destruct (Hl' p c Hp Hc) as (e & He & Heid & Hepar).
      destruct (Hkeep e He) as (e' & He' & Hid' & Hpar').
      exists e'. rewrite Hid', Hpar'. auto.
Qed.

Lemma transition_coherent (t now : Timestamp) (w w' : World) (r : Request) :
  transition now w r w' -> coherent t w -> t <= now -> coherent now w'.
Proof.
  intros Htr [Hfresh Hids Hnames Hkids Hlinks Htimes] Hle.
  assert (Htimes' : Forall (fun d => createdAt d <= updatedAt d
                                     /\ updatedAt d <= now) (docs w)).
  { eapply Forall_impl; [|exact Htimes]. simpl. intros d Hd. lia. }
  destruct Htr
    as [r w' Hdocs Hnext
       |id body oid d w' Hc Hd Hname Hdocs Hnext
       |id oid d w' Hc Hd Hname Hdocs Hnext
       |body d w' Hid Hname Hfree Hact Hsub Hcr Hup Hnext Hdocs].
  - constructor; rewrite Hdocs; trivial.
    eapply Forall_impl; [|exact Hfresh]. simpl. intros d Hd. lia.
  - constructor; rewrite Hdocs, ?Hnext.
    + now apply Forall_modifyId.
    + now rewrite map_modifyId.
    + apply NoDup_names_modifyId with d; trivial.
      destruct Hname as [H|H]; [now left|right].
      now apply nameTaken_false.
    + now apply Forall_modifyId.
    + now apply linked_modifyId.
    + apply Forall_modifyId; [|exact Htimes'].
      intros x [H1 H2]. simpl. lia.
  - constructor; rewrite Hdocs, ?Hnext.
    + now apply Forall_modifyId.
    + now rewrite map_modifyId.
    + now rewrite map_modifyId.
    + now apply Forall_modifyId.
    + now apply linked_modifyId.
    + now apply Forall_modifyId.
  - assert (Hfresh1 : Forall (fun x => (_id x < nextId w')%N) (docs w ++ [d])).
    { apply Forall_app. split.
      - eapply Forall_impl; [|exact Hfresh]. simpl. intros x Hx. lia.
      - repeat constructor. lia. }
    assert (Hids1 : NoDup (map _id (docs w ++ [d]))).
    { rewrite map_app. apply NoDup_snoc; [exact Hids|].
      intros Hin. apply in_map_iff in Hin. destruct Hin as (x & Hx & Hxin).
      rewrite Forall_forall in Hfresh. specialize (Hfresh x Hxin).
      simpl in Hfresh. lia. }
    assert (Hnames1 : NoDup (map name (docs w ++ [d]))).
    { rewrite map_app. apply NoDup_snoc; [exact Hnames|].
      now apply nameTaken_false. }
    assert (Hkids1 : Forall (fun x => NoDup (subcategories x)) (docs w ++ [d])).
    { apply Forall_app. split; [exact Hkids|].
      repeat constructor. rewrite Hsub. constructor. }
    assert (Htimes1 : Forall (fun x => createdAt x <= updatedAt x
                                       /\ updatedAt x <= now) (docs w ++ [d])).
    { apply Forall_app. split; [exact Htimes'|]. repeat constructor; lia. }
    destruct Hdocs as [Hdocs|(parent & Hpar & Hdocs)];
      constructor; rewrite Hdocs; trivial.
    + now apply linked_insert.
    + now apply Forall_modifyId.
    + now rewrite map_modifyId.
    + now rewrite map_modifyId.
    + apply Forall_modifyId; [|exact Hkids1].
      intros x Hx. simpl. now apply NoDup_addToSet.
    + now apply linked_link.
    + now apply Forall_modifyId.
Qed.

Lemma reachable_coherent (t : Timestamp) (w : World) :
  reachable t w -> coherent t w.
Proof.
  induction 1 as [t|t w now r Hr IH Hle].
  - constructor; simpl; try constructor. intros p c [].
  - eapply transition_coherent; [apply handle_transition|exact IH|exact Hle].
Qed.

Lemma lookupId_unique ds d :
  NoDup (map _id ds) -> In d ds -> lookupId (_id d) ds = Some d.
Proof.
  induction ds as [|e ds IH]; simpl; [tauto|].
  intros Hnd Hin. inversion Hnd as [|? ? Hnotin Hnd']; subst.
  destruct Hin as [->|Hin]; [now rewrite N.eqb_refl|].
  destruct (_id e =? _id d)%N eqn:E; [|now apply IH].
  apply N.eqb_eq in E. elim Hnotin. rewrite E. now apply in_map.
Qed.

Lemma NoDup_map_injective {A B} (f : A -> B) (l : list A) (x y : A) :
  NoDup (map f l) -> In x l -> In y l -> f x = f y -> x = y.
Proof.
  induction l as [|a l IH]; simpl; [tauto|].
  intros Hnd Hx Hy Hf. inversion Hnd as [|? ? Hnotin Hnd']; subst.
  destruct Hx as [->|Hx], Hy as [->|Hy]; trivial.
  - elim Hnotin. rewrite Hf. now apply in_map.
  - elim Hnotin. rewrite <- Hf. now apply in_map.
  - now apply IH.
Qed.

(** ** Identifiers and names *)

(** X1.  In every world the service reaches, a stored document is the one
    its identifier resolves to: identifiers are pairwise distinct, and each
    was drawn from the counter before. *)
Theorem stored_documents_resolve (t : Timestamp) (w : World) (d : Category) :
  reachable t w -> In d (docs w) ->
  lookupId (_id d) (docs w) = Some d
  /\ (_id d < nextId w)%N
  /\ forall e, In e (docs w) -> _id e = _id d -> e = d.
Proof.
  intros Hr Hin. destruct (reachable_coherent t w Hr) as [Hfresh Hids _ _ _ _].
  split; [now apply lookupId_unique|]. split.
  - rewrite Forall_forall in Hfresh. now apply Hfresh.
  - intros e He Heq. now apply (NoDup_map_injective _id (docs w)).
Qed.

Lemma stored_documents_resolve_witness :
  reachable 30 pantry /\
  exists d,
    lookupId 1%N (docs pantry) = Some d /\ In d (docs pantry)
    /\ lookupId (_id d) (docs pantry) = Some d
    /\ (_id d < nextId pantry)%N.
Proof.
  split; [exact pantry_reachable|].
  eexists. split; [reflexivity|].
  match goal with
  | |- In ?d _ /\ _ =>
      assert (Hin : In d (docs pantry)) by (right; left; reflexivity);
      split; [exact Hin|];
      destruct (stored_documents_resolve 30 pantry d pantry_reachable Hin)
        as (H1 & H2 & _)
  end.
  split; assumption.
Defined.

(** X2.  In every world the service reaches, no two stored documents have
    the same name: the unique index turns away the insert and the rename
    that would make two. *)
Theorem names_stay_unique (t : Timestamp) (w : World) (d e : Category) :
  reachable t w -> In d (docs w) -> In e (docs w) ->
  name d = name e -> d = e.
Proof.
  intros Hr Hd He Heq.
  destruct (reachable_coherent t w Hr) as [_ _ Hnames _ _ _].
  now apply (NoDup_map_injective name (docs w)).
Qed.

Lemma names_stay_unique_witness :
  reachable 30 pantry /\
  exists d e,
    lookupId 1%N (docs pantry) = Some d /\ In d (docs pantry)
    /\ In e (docs pantry) /\ name e = "Pizza" /\ d = e.
Proof.
  split; [exact pantry_reachable|].
  eexists. exists (nth 1 (docs pantry) (mkCategory 0%N EmptyString None None
                     None true None [] None None 0 0)).
  split; [reflexivity|].
  match goal with
  | |- In ?d _ /\ In ?e _ /\ _ =>
      assert (Hd : In d (docs pantry)) by (right; left; reflexivity);
      assert (He : In e (docs pantry)) by (right; left; reflexivity);
      split; [exact Hd|]; split; [exact He|]; split; [reflexivity|];
      exact (names_stay_unique 30 pantry d e pantry_reachable Hd He eq_refl)
  end.
Defined.

(** ** The children of a category *)

(** X3.  In every world the service reaches, the [subcategories] array of
    a stored category holds no identifier twice, and each identifier in it
    resolves to a stored document whose [parentId] is that category: the
    array only ever receives the identifier of a child that was just
    created under it, and no request moves or removes a document. *)
Theorem subcategories_are_children (t : Timestamp) (w : World) (p : Category) :
  reachable t w -> In p (docs w) ->
  NoDup (subcategories p)
  /\ forall c, In c (subcategories p) ->
       exists e, lookupId c (docs w) = Some e
                 /\ parentId e = Some (_id p).
Proof.
  intros Hr Hp.
  destruct (reachable_coherent t w Hr) as [_ Hids _ Hkids Hlinks _].
  split.
  - rewrite Forall_forall in Hkids. now apply Hkids.
  - intros c Hc. destruct (Hlinks p c Hp Hc) as (e & He & <- & Hpar).
    exists e. split; [now apply lookupId_unique|exact Hpar].
Qed.

Lemma subcategories_are_children_witness :
  reachable 30 pantry /\
  exists p,
    lookupId 0%N (docs pantry) = Some p /\ In p (docs pantry)
    /\ subcategories p = [1%N; 2%N]
    /\ NoDup (subcategories p)
    /\ forall c, In c (subcategories p) ->
         exists e, lookupId c (docs pantry) = Some e
                   /\ parentId e = Some (_id p).
Proof.
  split; [exact pantry_reachable|].
  eexists. split; [reflexivity|].
  match goal with
  | |- In ?p _ /\ _ =>
      assert (Hin : In p (docs pantry)) by (left; reflexivity);
      split; [exact Hin|]; split; [reflexivity|];
      exact (subcategories_are_children 30 pantry p pantry_reachable Hin)
  end.
Defined.

Lemma expand_all (P : Category -> Prop) ds ids :
  (forall c, In c ids -> exists e, lookupId c ds = Some e /\ P e) ->
  map _id (expand ds ids) = ids /\ Forall P (expand ds ids).
Proof.
  induction ids as [|c ids IH]; simpl; intros H; [split; constructor|].
  destruct (H c (or_introl eq_refl)) as (e & He & HP).
  destruct IH as [IH1 IH2]; [intros x Hx; apply H; now right|].
  rewrite He. simpl. split.
  - f_equal; [now apply lookupId_id with ds|exact IH1].
  - constructor; assumption.
Qed.

(** X4.  In every world the service reaches, the lookup of a stored
    category answers with all its children: the expansion of
    [subcategories] drops no identifier, keeps the order of the array, and
    every document in it has the category as its parent. *)
Theorem getCategory_expands_all (t : Timestamp) (w : World) (id : string)
    (p : Category) :
  reachable t w -> resolves w id p ->
  exists kids,
    getCategory id w = (w, json (Expanded {| doc := p; children := kids |}))
    /\ map _id kids = subcategories p
    /\ Forall (fun c => parentId c = Some (_id p)) kids.
Proof.
  intros Hr (oid & Hc & Hp).
  exists (expand (docs w) (subcategories p)).
  rewrite getCategory_run, Hc, Hp. split; [reflexivity|].
  apply expand_all. intros c Hin.
  pose proof (lookupId_In _ _ _ Hp) as Hpin.
  destruct (reachable_coherent t w Hr) as [_ Hids _ _ Hlinks _].
  destruct (Hlinks p c Hpin Hin) as (e & He & <- & Hpar).
  exists e. split; [now apply lookupId_unique|exact Hpar].
Qed.

Lemma getCategory_expands_all_witness :
  reachable 30 pantry /\
  exists p,
    resolves pantry oid0 p /\
    exists kids,
      getCategory oid0 pantry
      = (pantry, json (Expanded {| doc := p; children := kids |}))
      /\ map _id kids = subcategories p
      /\ Forall (fun c => parentId c = Some (_id p)) kids.
Proof.
  split; [exact pantry_reachable|].
  eexists. 
  match goal with
  | |- resolves _ _ ?p /\ _ =>
      assert (Hres : resolves pantry oid0 p)
        by (exists 0%N; split; reflexivity);
      split; [exact Hres|];
      exact (getCategory_expands_all 30 pantry oid0 p pantry_reachable Hres)
  end.
Defined.

(** ** Timestamps *)

(** X5.  In every world the service reaches by clock reading [t], no
    stored document was updated before it was created, or after [t]. *)
Theorem timestamps_ordered (t : Timestamp) (w : World) (d : Category) :
  reachable t w -> In d (docs w) ->
  createdAt d <= updatedAt d /\ updatedAt d <= t.
Proof.
  intros Hr Hin. destruct (reachable_coherent t w Hr) as [_ _ _ _ _ Htimes].
  rewrite Forall_forall in Htimes. now apply Htimes.
Qed.

Lemma menu_reachable : reachable 50 menu.
Proof. exact (run_reachable history 0 emptyWorld (reach_start 0) eq_refl). Qed.

Lemma timestamps_ordered_witness :
  reachable 50 menu /\
  exists d,
    lookupId 1%N (docs menu) = Some d /\ In d (docs menu)
    /\ createdAt d = 20 /\ updatedAt d = 40
    /\ createdAt d <= updatedAt d /\ updatedAt d <= 50.
Proof.
  split; [exact menu_reachable|].
  eexists. split; [reflexivity|].
  match goal with
  | |- In ?d _ /\ _ =>
      assert (Hin : In d (docs menu)) by (right; left; reflexivity);
      split; [exact Hin|]; split; [reflexivity|]; split; [reflexivity|];
      exact (timestamps_ordered 50 menu d menu_reachable Hin)
  end.
Defined.

(** ** Creation, then lookup *)

Lemma lookupId_fresh oid ds :
  Forall (fun d => (_id d < oid)%N) ds -> lookupId oid ds = None.
Proof.
  induction 1 as [|d ds Hd Hds IH]; simpl; [reflexivity|].
  destruct (_id d =? oid)%N eqn:E; [|exact IH].
  apply N.eqb_eq in E. lia.
Qed.

Lemma lookupId_snoc oid ds d :
  lookupId oid ds = None -> _id d = oid -> lookupId oid (ds ++ [d]) = Some d.
Proof.
  intros Hnone Hid. induction ds as [|e ds IH]; simpl in *.
  - now rewrite Hid, N.eqb_refl.
  - destruct (_id e =? oid)%N; [discriminate|]. now apply IH.
Qed.

(** X6.  In every world the service reaches, a create request answered 201
    is followed by a lookup that finds the created document: the identifier
    in the response resolves, to the very document of the response unless
    the document was made its own parent. *)
Theorem create_then_get (t : Timestamp) (w : World) (now : Timestamp)
    (body : CreateBody.t) :
  reachable t w ->
  status (snd (createCategory now body w)) = 201%nat ->
  let w' := fst (createCategory now body w) in
  exists d,
    snd (createCategory now body w) = created (Plain d)
    /\ forall id, castObjectId id = Some (_id d) ->
         exists d',
           getCategory id w'
           = (w', json (Expanded (populateOne (docs w') d')))
           /\ (parentId d <> Some (_id d) -> d' = d)
           /\ name d' = name d /\ createdAt d' = createdAt d.
Proof.
  intros Hr Hst w'.
  destruct (createCategory_run w now body _ _ (surjective_pairing _) Hst)
    as (n & d & _ & _ & _ & _ & Hd & Hresp & _ & Hdocs).
  fold w' in Hdocs.
  assert (Hid : _id d = nextId w) by now rewrite Hd.
  assert (Hpar : parentId d = match CreateBody.parentId body with
                               | Some p => castObjectId p
                               | None => None
                               end) by now rewrite Hd.
  clear Hd. exists d. split; [exact Hresp|]. intros id Hc.
  destruct (reachable_coherent t w Hr) as [Hfresh _ _ _ _ _].
  assert (Hnew : lookupId (_id d) (docs w ++ [d]) = Some d).
  { apply lookupId_snoc; [|reflexivity]. rewrite Hid.
    now apply lookupId_fresh. }
  rewrite getCategory_run, Hc.
  assert (Hcase : docs w' = docs w ++ [d]
                  \/ exists parent, parentId d = Some parent /\
                       docs w' = modifyId parent
                                   (applyUpdate
                                      (AddToSetSubcategories (_id d)))
                                   (docs w ++ [d])).
  { rewrite Hdocs, Hpar.
    destruct (CreateBody.parentId body) as [p|]; [|now left].
    destruct (String.eqb p EmptyString); [now left|].
    destruct (castObjectId p) as [parent|]; [|now left].
    right. now exists parent. }
  destruct Hcase as [Hw'|(parent & Hp & Hw')]; rewrite Hw'.
  - rewrite Hnew. exists d. auto.
  - destruct (N.eq_dec parent (_id d)) as [->|Hne].
    + rewrite (lookupId_modifyId_same (_id d)
                 (applyUpdate (AddToSetSubcategories (_id d))) _ _
                 (fun x => eq_refl) Hnew).
      eexists. split; [reflexivity|]. split; [tauto|]. split; reflexivity.
    + rewrite lookupId_modifyId_other; [|reflexivity|congruence].
      rewrite Hnew. exists d. auto.
Qed.

Lemma create_then_get_witness :
  reachable 10 larder
  /\ status (snd (createCategory 20 pizzaBody larder)) = 201%nat
  /\ exists d,
       snd (createCategory 20 pizzaBody larder) = created (Plain d)
       /\ forall id, castObjectId id = Some (_id d) ->
            exists d',
              getCategory id (fst (createCategory 20 pizzaBody larder))
              = (fst (createCategory 20 pizzaBody larder),
                 json (Expanded
                         (populateOne
                            (docs (fst (createCategory 20 pizzaBody larder)))
                            d')))
              /\ (parentId d <> Some (_id d) -> d' = d)
              /\ name d' = name d /\ createdAt d' = createdAt d.
Proof.
  assert (Hr : reachable 10 larder).
  { exact (run_reachable [(10, CreateCategory foodBody)] 0 emptyWorld
             (reach_start 0) eq_refl). }
  split; [exact Hr|]. split; [reflexivity|].
  exact (create_then_get 10 larder 20 pizzaBody Hr eq_refl).
Defined.

(** ** More on the soft delete *)

(** X7.  The soft delete is idempotent: sent again, it leaves the store as
    the first one left it and gets the same answer (200 again for a
    category that is already inactive, not 404). *)
Theorem deleteCategory_twice (w : World) (id : string) :
  deleteCategory id (fst (deleteCategory id w)) = deleteCategory id w.
Proof.
  rewrite (deleteCategory_run w).
  destruct (castObjectId id) as [oid|] eqn:Hc; simpl;
    [|now rewrite deleteCategory_run, Hc].
  destruct (lookupId oid (docs w)) as [d|] eqn:Hd; simpl;
    [|now rewrite deleteCategory_run, Hc, Hd].
  destruct (String.eqb (name d) EmptyString) eqn:Hn; simpl;
    [now rewrite deleteCategory_run, Hc, Hd, Hn|].
  rewrite deleteCategory_run, Hc. simpl.
  rewrite (lookupId_modifyId_same oid (withIsActive false) _ _
             (fun x => eq_refl) Hd).
  simpl. rewrite Hn.
  rewrite modifyId_twice; reflexivity.
Qed.

(** What a filtered find with [isActive: true] returns is stored and
    active. *)
Lemma find_active (w w' : World) (f : Filter) (l : list Category) :
  find f w = (w', Ok l) -> f_isActive f = Some true ->
  forall d, In d l -> In d (docs w) /\ isActive d = true.
Proof.
  unfold find, castFilter, castOptional, castPath, getDocs, bind, ret, throw.
  destruct f as [a b t p]. simpl. intros Hrun -> d.
  destruct b as [b|], p as [p|]; simpl in Hrun;
    try destruct (castObjectId b); simpl in Hrun;
    try destruct (castObjectId p); simpl in Hrun;
    try discriminate.
  all: injection Hrun as _ <-; intros Hin.
  all: eapply Permutation_in in Hin; [|apply Permutation_sym, sortByName_perm].
  all: apply filter_In in Hin; destruct Hin as [Hin Hm]; split; [exact Hin|].
  all: unfold matches in Hm; simpl in Hm.
  all: destruct (isActive d); [reflexivity|discriminate].
Qed.

Lemma listCategories_active (w : World) (q : Query.t)
    (data : list Populated) (n : nat) :
  snd (listCategories q w) = json (Categories data n) ->
  forall p, In p data -> In (doc p) (docs w) /\ isActive (doc p) = true.
Proof.
  unfold listCategories, tryCatch, bind at 1.
  match goal with
  | |- context [find ?f w] => destruct (find f w) as [w1 [l|e]] eqn:Hf
  end; [|discriminate].
  unfold populateEach, getDocs, bind, ret. simpl. intros [= <- _] p Hp.
  apply in_map_iff in Hp. destruct Hp as (d & <- & Hd). simpl.
  exact (find_active _ _ _ _ Hf eq_refl d Hd).
Qed.

Lemma getSubcategories_active (w : World) (id : string)
    (l : list Category) (n : nat) :
  snd (getSubcategories id w) = json (Subcategories l n) ->
  forall c, In c l -> In c (docs w) /\ isActive c = true.
Proof.
  unfold getSubcategories, tryCatch, bind at 1.
  match goal with
  | |- context [find ?f w] => destruct (find f w) as [w1 [l'|e]] eqn:Hf
  end; [|discriminate].
  unfold ret. simpl. intros [= <- _].
  exact (find_active _ _ _ _ Hf eq_refl).
Qed.

(** X8.  In every world the service reaches, a category that was
    soft-deleted is no result document of any listing, whatever the
    filters, and of no list of subcategories; the lookup by its identifier
    still answers 200, with the document marked inactive.  (Nothing is said
    of the children expanded inside a result: [populate] fills them
    whether they are active or not.) *)
Theorem deleted_is_unlisted (t : Timestamp) (w : World) (id : string)
    (d : Category) :
  reachable t w -> resolves w id d -> name d <> EmptyString ->
  let w' := fst (deleteCategory id w) in
  (forall q data n,
     snd (listCategories q w') = json (Categories data n) ->
     forall p, In p data -> _id (doc p) <> _id d)
  /\ (forall parent l n,
        snd (getSubcategories parent w') = json (Subcategories l n) ->
        forall c, In c l -> _id c <> _id d)
  /\ getCategory id w'
     = (w', json (Expanded (populateOne (docs w') (withIsActive false d)))).
Proof.
  intros Hr Hres Hname w'.
  assert (Hr' : reachable t w').
  { exact (reach_step t w t (DeleteCategory id) Hr (Z.le_refl t)). }
  destruct (reachable_coherent t w' Hr') as [_ Hids _ _ _ _].
  destruct (deleteCategory_soft w id d Hres Hname) as (_ & Hoff & _).
  fold w' in Hoff. destruct Hoff as (oid & Hc & Hoff).
  assert (Hgone : forall x, In x (docs w') -> isActive x = true ->
                            _id x <> _id d).
  { intros x Hx Hact Heq.
    assert (x = withIsActive false d).
    { apply (NoDup_map_injective _id (docs w')); trivial.
      now apply lookupId_In with oid. }
    subst x. discriminate Hact. }
  split; [|split].
  - intros q data n Hl p Hp.
    destruct (listCategories_active w' q data n Hl p Hp). now apply Hgone.
  - intros parent l n Hl c Hin.
    destruct (getSubcategories_active w' parent l n Hl c Hin).
    now apply Hgone.
  - now rewrite getCategory_run, Hc, Hoff.
Qed.

Lemma deleted_is_unlisted_witness :
  reachable 30 pantry /\
  exists d,
    resolves pantry oid0 d /\ name d <> EmptyString /\
    (forall q data n,
       snd (listCategories q closedPantry) = json (Categories data n) ->
       forall p, In p data -> _id (doc p) <> _id d)
    /\ getCategory oid0 closedPantry
       = (closedPantry,
          json (Expanded (populateOne (docs closedPantry)
                            (withIsActive false d)))).
Proof.
  split; [exact pantry_reachable|].
  eexists.
  match goal with
  | |- resolves _ _ ?d /\ _ =>
      assert (Hres : resolves pantry oid0 d)
        by (exists 0%N; split; reflexivity);
      split; [exact Hres|];
      assert (Hname : name d <> EmptyString) by discriminate;
      split; [exact Hname|];
      destruct (deleted_is_unlisted 30 pantry oid0 d pantry_reachable
                  Hres Hname) as (H1 & _ & H3)
  end.
  split; [exact H1|exact H3].
Defined.

(** ** What no request changes *)

Lemma handle_keeps_fields (w : World) (now : Timestamp) (r : Request)
    (oid : ObjectId) (d : Category) :
  lookupId oid (docs w) = Some d ->
  exists d',
    lookupId oid (docs (fst (handle now r w))) = Some d'
    /\ _id d' = _id d /\ parentId d' = parentId d
    /\ businessId d' = businessId d /\ tenantId d' = tenantId d
    /\ createdAt d' = createdAt d
    /\ incl (subcategories d) (subcategories d').
Proof.
  intros Hd. destruct (handle_lookup now w r oid d Hd) as (d' & Hl & Hcase).
  exists d'. split; [exact Hl|].
  destruct Hcase as [->|[(id & body & _ & _ & ->)|[(body & c & _ & ->)
                    |(id & _ & _ & ->)]]]; simpl;
    repeat split; try apply incl_refl.
  intros x Hx. now apply addToSet_keeps.
Qed.

(** X9.  Through every sequence of requests a stored category stays
    stored, under the same identifier, with the [parentId], [businessId],
    [tenantId] and [createdAt] it was created with, and its
    [subcategories] array loses no identifier: no route removes a document,
    moves it to another parent, tenant or business, or unlinks a child. *)
Theorem category_keeps_its_place (trace : list (Timestamp * Request)) :
  forall (w : World) (oid : ObjectId) (d : Category),
    lookupId oid (docs w) = Some d ->
    exists d',
      lookupId oid (docs (fst (run trace w))) = Some d'
      /\ _id d' = _id d /\ parentId d' = parentId d
      /\ businessId d' = businessId d /\ tenantId d' = tenantId d
      /\ createdAt d' = createdAt d
      /\ incl (subcategories d) (subcategories d').
Proof.
  induction trace as [|[now r] rest IH]; simpl; intros w oid d Hd.
  - exists d. repeat split; trivial. apply incl_refl.
  - destruct (handle_keeps_fields w now r oid d Hd)
      as (d1 & Hd1 & H1 & H2 & H3 & H4 & H5 & H6).
    destruct (IH _ oid d1 Hd1) as (d2 & Hd2 & G1 & G2 & G3 & G4 & G5 & G6).
    destruct (handle now r w) as [w1 resp]. simpl in *.
    destruct (run rest w1) as [w2 resps]. simpl in *.
    exists d2. split; [exact Hd2|].
    repeat split; try congruence.
    eapply incl_tran; eassumption.
Qed.

Lemma category_keeps_its_place_witness :
  exists d,
    lookupId 0%N (docs larder) = Some d /\
    exists d',
      lookupId 0%N
        (docs (fst (run [(20, CreateCategory pizzaBody);
                         (30, CreateCategory appleBody);
                         (40, UpdateCategory oid0 reviveBody);
                         (50, DeleteCategory oid0)] larder))) = Some d'
      /\ _id d' = _id d /\ parentId d' = parentId d
      /\ businessId d' = businessId d /\ tenantId d' = tenantId d
      /\ createdAt d' = createdAt d
      /\ incl (subcategories d) (subcategories d').
Proof.
  eexists. split; [reflexivity|].
  eapply (category_keeps_its_place _ larder 0%N). reflexivity.
Defined.

(** ** Answers *)

Ltac envelope :=
  first [ left; repeat split; reflexivity
        | right; split; [reflexivity|split; [reflexivity|simpl; auto]] ].

(** X10.  Every answer of the six routes is of one of two kinds: a success
    ([success: true], a payload that is no error message, status 201 for a
    create and 200 for the rest) or a failure ([success: false], an error
    message, and status 500 or the route's own refusal: 400 for a create,
    404 for the lookup, the update and the soft delete; the two listings
    have none). *)
Theorem response_envelope (w : World) (now : Timestamp) (r : Request) :
  let resp := snd (handle now r w) in
  (success resp = true /\ isFailure (payload resp) = false
   /\ status resp = okStatus r)
  \/ (success resp = false /\ isFailure (payload resp) = true
      /\ In (status resp) (500%nat :: refusals r)).
Proof.
  destruct r as [q|id|id|body|id body|id]; simpl.
  - destruct q as [b t p]. unfold listCategories, truthy. unfold_op. simpl.
    destruct b as [b|], p as [p|]; simpl;
      try destruct (String.eqb b EmptyString);
      try destruct (String.eqb p EmptyString); simpl;
      try destruct (castObjectId b); simpl;
      try destruct (castObjectId p); simpl; try envelope.
  - rewrite getCategory_run.
    destruct (castObjectId id) as [oid|]; simpl; try envelope.
    destruct (lookupId oid (docs w)); simpl; try envelope.
  - unfold getSubcategories. unfold_op. simpl.
    destruct (castObjectId id); simpl; try envelope.
  - unfold createCategory, tryCatch.
    destruct body as [n de ic co p b t]. simpl.
    destruct n as [n|]; simpl; try envelope.
    destruct (String.eqb n EmptyString) eqn:En; simpl; try envelope.
    unfold_op. simpl. rewrite En.
    destruct p as [p|]; simpl;
      [destruct (String.eqb p EmptyString) eqn:Ep; simpl;
       [|destruct (castObjectId p) as [parent|] eqn:Cp; simpl]|];
      (destruct b as [b|]; simpl; [destruct (castObjectId b) eqn:Cb; simpl|]);
      try envelope;
      (destruct (nameTaken n (docs w)) eqn:Hn; simpl; try envelope).
    all: try match goal with
         | |- context [lookupId ?o ?l] =>
             destruct (lookupId o l) eqn:Hl; simpl
         end.
    all: rewrite ?String.eqb_refl; simpl; try envelope.
  - pose proof (updateCategory_run w now id body) as Hrun. simpl in Hrun.
    rewrite Hrun.
    destruct (castObjectId id) as [oid|]; simpl; try envelope.
    destruct (lookupId oid (docs w)); simpl; try envelope.
    destruct (negb _ && _); simpl; try envelope.
  - rewrite deleteCategory_run.
    destruct (castObjectId id) as [oid|]; simpl; try envelope.
    destruct (lookupId oid (docs w)) as [d|]; simpl; try envelope.
    destruct (String.eqb (name d) EmptyString); simpl; try envelope.
Qed.

(** ** More on creation *)

(** X11.  A create request with a name that a stored document holds is
    answered 500, "Failed to create category", and stores nothing: the
    unique index on [name] turns the insert away. *)
Theorem createCategory_duplicate_name (w : World) (now : Timestamp)
    (body : CreateBody.t) (n : string) :
  CreateBody.name body = Some n -> n <> EmptyString ->
  nameTaken n (docs w) = true ->
  snd (createCategory now body w) = failed 500 "Failed to create category"
  /\ docs (fst (createCategory now body w)) = docs w.
Proof.
  unfold createCategory, tryCatch.
  destruct body as [n' de ic co p b t]. simpl.
  intros -> Hne Htaken. apply String.eqb_neq in Hne.
  unfold truthy at 1. rewrite Hne. simpl.
  unfold_op. simpl. rewrite Hne.
  destruct p as [p|]; simpl;
    [destruct (String.eqb p EmptyString) eqn:Ep; simpl;
     [|destruct (castObjectId p) as [parent|] eqn:Cp; simpl]|];
    (destruct b as [b|]; simpl; [destruct (castObjectId b) eqn:Cb; simpl|]);
    rewrite ?Htaken; split; reflexivity.
Qed.

Lemma createCategory_duplicate_name_witness :
  CreateBody.name pizzaBody = Some "Pizza" /\ "Pizza" <> EmptyString
  /\ nameTaken "Pizza" (docs pantry) = true
  /\ snd (createCategory 40 pizzaBody pantry)
     = failed 500 "Failed to create category"
  /\ docs (fst (createCategory 40 pizzaBody pantry)) = docs pantry.
Proof.
  split; [reflexivity|]. split; [discriminate|]. split; [reflexivity|].
  apply (createCategory_duplicate_name pantry 40 pizzaBody "Pizza");
    [reflexivity|discriminate|reflexivity].
Defined.



(** ** Reading *)

(** X13.  A sequence of requests to the three reading routes, however
    long and whatever its answers, leaves the store as it was. *)
Theorem reads_write_nothing (trace : list (Timestamp * Request)) :
  forall w : World,
    forallb (fun step => readOnly (snd step)) trace = true ->
    fst (run trace w) = w.
Proof.
  induction trace as [|[now r] rest IH]; simpl; intros w Hro; [reflexivity|].
  apply andb_prop in Hro. destruct Hro as [Hr Hrest].
  assert (Hw : fst (handle now r w) = w).
  { destruct (reads_keep_world w) as (Hl & Hg & Hs).
    destruct r; simpl in *; try discriminate; auto. }
  specialize (IH (fst (handle now r w)) Hrest).
  destruct (handle now r w) as [w1 resp]. simpl in *.
  destruct (run rest w1) as [w2 resps]. simpl in *. congruence.
Qed.

Lemma reads_write_nothing_witness :
  let trace := [(40, GetCategory oid0); (41, GetCategory "pizza");
                (42, ListCategories {| Query.businessId := Some "acme";
                                       Query.tenantId := None;
                                       Query.parentId := Some oid0 |});
                (43, GetSubcategories oid0)] in
  forallb (fun step => readOnly (snd step)) trace = true
  /\ fst (run trace pantry) = pantry.
Proof.
  intros trace. split; [reflexivity|].
  apply (reads_write_nothing trace pantry). reflexivity.
Defined.

(** ** The subcategories route *)

(** X14.  For an identifier that is an ObjectId, the subcategories route
    answers 200 with exactly the stored documents that are active and have
    that identifier as [parentId], each once, ascending by name, not
    expanded, and writes nothing; whether the identifier itself resolves
    plays no part.  The listing filtered by the same [parentId] returns the
    same documents in the same order, expanded. *)
Theorem getSubcategories_children (w : World) (id : string) (oid : ObjectId) :
  castObjectId id = Some oid ->
  exists l,
    getSubcategories id w = (w, json (Subcategories l (length l)))
    /\ Permutation l
         (filter (fun d => isActive d && eqOptId (Some oid) (parentId d))
                 (docs w))
    /\ Sorted byName l
    /\ listCategories {| Query.businessId := None; Query.tenantId := None;
                         Query.parentId := Some id |} w
       = (w, json (Categories (map (populateOne (docs w)) l) (length l))).
Proof.
  intros Hc.
  set (sel := fun d => isActive d && eqOptId (Some oid) (parentId d)).
  assert (Hne : String.eqb id EmptyString = false).
  { destruct (String.eqb_spec id EmptyString) as [->|]; [|reflexivity].
    discriminate Hc. }
  exists (sortByName (filter sel (docs w))).
  split; [|split; [apply Permutation_sym, sortByName_perm|
                   split; [apply sortByName_sorted|]]].
  - unfold getSubcategories. unfold_op. simpl. rewrite Hc. simpl.
    match goal with
    | |- context [filter (matches ?c) _] =>
        rewrite (filter_ext (matches c) sel)
    end; [reflexivity|].
    intros d. unfold matches, sel. simpl.
    destruct (isActive d); reflexivity.
  - rewrite listCategories_run; [|reflexivity|].
    + simpl. rewrite length_map.
      rewrite (filter_ext (selects _) sel); [reflexivity|].
      intros d. unfold selects, sel, agreesId. simpl.
      rewrite Hne, Hc. destruct (isActive d); reflexivity.
    + simpl. unfold castable. now rewrite Hne, Hc.
Qed.

Lemma getSubcategories_children_witness :
  castObjectId oid0 = Some 0%N /\
  exists l,
    getSubcategories oid0 menu = (menu, json (Subcategories l (length l)))
    /\ map name l = ["Pasta"]
    /\ Sorted byName l.
Proof.
  split; [reflexivity|].
  destruct (getSubcategories_children menu oid0 0%N eq_refl)
    as (l & Hrun & _ & Hsorted & _).
  exists l. split; [exact Hrun|]. split; [|exact Hsorted].
  assert (Hl : Subcategories l (length l)
               = payload (snd (getSubcategories oid0 menu)))
    by now rewrite Hrun.
  vm_compute in Hl. now injection Hl as ->.
Defined.

(** ** Writes, then reads *)

(** X15.  An update answered 200 is followed by a lookup that answers with
    the very document the update answered with. *)
Theorem update_then_get (w : World) (now : Timestamp) (id : string)
    (body : UpdateBody.t) :
  status (snd (updateCategory now id body w)) = 200%nat ->
  let w' := fst (updateCategory now id body w) in
  exists c,
    snd (updateCategory now id body w) = json (Plain c)
    /\ getCategory id w' = (w', json (Expanded (populateOne (docs w') c))).
Proof.
  intros Hst w'. subst w'. revert Hst.
  pose proof (updateCategory_run w now id body) as Hrun. simpl in Hrun.
  rewrite Hrun, getCategory_run.
  destruct (castObjectId id) as [oid|] eqn:Hc; [|discriminate].
  destruct (lookupId oid (docs w)) as [d|] eqn:Hd; [|discriminate].
  destruct (negb _ && _); [discriminate|]. intros _.
  eexists. split; [reflexivity|]. cbn [fst snd docs].
  match goal with
  | |- context [modifyId oid ?f (docs w)] =>
      rewrite (lookupId_modifyId_same oid f _ _ (fun x => eq_refl) Hd)
  end.
  reflexivity.
Qed.

Lemma update_then_get_witness :
  status (snd (updateCategory 40 oid1 pastaBody pantry)) = 200%nat /\
  exists c,
    snd (updateCategory 40 oid1 pastaBody pantry) = json (Plain c)
    /\ getCategory oid1 (fst (updateCategory 40 oid1 pastaBody pantry))
       = (fst (updateCategory 40 oid1 pastaBody pantry),
          json (Expanded
                  (populateOne
                     (docs (fst (updateCategory 40 oid1 pastaBody pantry)))
                     c))).
Proof.
  split; [reflexivity|].
  exact (update_then_get pantry 40 oid1 pastaBody eq_refl).
Defined.

(** X16.  A create request answered 201 is followed by an unfiltered
    listing that holds the new category, under the identifier and the name
    of the response. *)
Theorem create_then_list (w : World) (now : Timestamp) (body : CreateBody.t) :
  status (snd (createCategory now body w)) = 201%nat ->
  let w' := fst (createCategory now body w) in
  exists d data,
    snd (createCategory now body w) = created (Plain d)
    /\ listCategories {| Query.businessId := None; Query.tenantId := None;
                         Query.parentId := None |} w'
       = (w', json (Categories data (length data)))
    /\ exists p, In p data /\ _id (doc p) = _id d /\ name (doc p) = name d.
Proof.
  intros Hst w'.
  destruct (createCategory_run w now body _ _ (surjective_pairing _) Hst)
    as (n & d & _ & _ & _ & _ & Hd & Hresp & _ & Hdocs).
  fold w' in Hdocs.
  assert (Hact : isActive d = true) by now rewrite Hd.
  clear Hd.
  assert (Hin : exists d', In d' (docs w') /\ _id d' = _id d
                           /\ name d' = name d /\ isActive d' = true).
  { assert (Hlast : In d (docs w ++ [d])) by (apply in_or_app; right; now left).
    rewrite Hdocs.
    destruct (CreateBody.parentId body) as [p|]; [|exists d; auto].
    destruct (String.eqb p EmptyString); [exists d; auto|].
    destruct (castObjectId p) as [parent|]; [|exists d; auto].
    destruct (modifyId_In parent
                (applyUpdate (AddToSetSubcategories (_id d))) _ d Hlast)
      as (d' & Hd' & [->| ->]); eexists; split; eauto. }
  destruct Hin as (d' & Hd' & Hid & Hname & Hact').
  exists d. eexists. split; [exact Hresp|].
  split; [rewrite listCategories_run by reflexivity; reflexivity|].
  exists (populateOne (docs w') d'). split; [|split; assumption].
  apply in_map. eapply Permutation_in; [apply sortByName_perm|].
  apply filter_In. split; [exact Hd'|].
  unfold selects. simpl. now rewrite Hact'.
Qed.

Lemma create_then_list_witness :
  status (snd (createCategory 20 pizzaBody larder)) = 201%nat /\
  exists d data,
    snd (createCategory 20 pizzaBody larder) = created (Plain d)
    /\ listCategories {| Query.businessId := None; Query.tenantId := None;
                         Query.parentId := None |}
         (fst (createCategory 20 pizzaBody larder))
       = (fst (createCategory 20 pizzaBody larder),
          json (Categories data (length data)))
    /\ exists p, In p data /\ _id (doc p) = _id d /\ name (doc p) = name d.
Proof.
  split; [reflexivity|].
  exact (create_then_list larder 20 pizzaBody eq_refl).
Defined.
